(** * Travel voice chatbot: the response pipeline of [app.py]

    A shallow embedding of the text/audio pipeline
    ([get_fallback_response], [get_text_response], [get_generated_audio],
    [download_audio_file], [get_text_and_audio_response]) together with the
    properties its specification states about it.

    Python [str] values are modelled as [string] (their UTF-8 bytes);
    [str.lower] is modelled on the ASCII range, which is where every keyword
    of the fallback table lives. *)

From Stdlib Require Import ZArith List Ascii String Bool Lia.
From Stdlib Require Import Numbers.DecimalString Floats.SpecFloat.
From stdpp Require Import base gmap strings.

Local Open Scope string_scope.

(** ** Python strings *)

Module PyStr.

(** [c.lower()] on one ASCII character. *)
Definition lower_ascii (c : ascii) : ascii :=
  let n := nat_of_ascii c in
  if (65 <=? n)%nat && (n <=? 90)%nat then ascii_of_nat (n + 32) else c.

(** [s.lower()] *)
Fixpoint lower (s : string) : string :=
  match s with
  | EmptyString => EmptyString
  | String c s' => String (lower_ascii c) (lower s')
  end.

(** [s.startswith(p)] *)
Fixpoint startswith (p s : string) : bool :=
  match p, s with
  | EmptyString, _ => true
  | String _ _, EmptyString => false
  | String a p', String b s' => Ascii.eqb a b && startswith p' s'
  end.

(** [needle in hay] for two strings: some suffix of [hay] starts with
    [needle]. *)
Fixpoint contains (needle hay : string) : bool :=
  startswith needle hay ||
  match hay with
  | EmptyString => false
  | String _ hay' => contains needle hay'
  end.

(** [bool(s)]: a string is truthy when it is not empty. *)
Definition truthy (s : string) : bool :=
  match s with EmptyString => false | String _ _ => true end.

(** [str(n)] for an [int]. *)
Definition of_Z (n : Z) : string := NilZero.string_of_int (Z.to_int n).

End PyStr.

Notation "needle 'in_str' hay" := (PyStr.contains needle hay)
  (at level 69, no associativity).

(** ** [hashlib.md5(data).hexdigest()]

    MD5 (RFC 1321) on 32-bit words held in [N], with the wrap-around
    written out. *)

Module MD5.
Local Open Scope N_scope.

Definition mask32 : N := 4294967295.
Definition wrap32 (x : N) : N := N.land x mask32.
Definition add32 (x y : N) : N := wrap32 (x + y).
Definition not32 (x : N) : N := N.lxor x mask32.
Definition rotl32 (x : N) (c : N) : N :=
  wrap32 (N.lor (N.shiftl x c) (N.shiftr x (32 - c))).

(** Per-round shift amounts. *)
Definition shifts : list N :=
  [7; 12; 17; 22; 7; 12; 17; 22; 7; 12; 17; 22; 7; 12; 17; 22;
   5; 9; 14; 20; 5; 9; 14; 20; 5; 9; 14; 20; 5; 9; 14; 20;
   4; 11; 16; 23; 4; 11; 16; 23; 4; 11; 16; 23; 4; 11; 16; 23;
   6; 10; 15; 21; 6; 10; 15; 21; 6; 10; 15; 21; 6; 10; 15; 21].

(** [floor(2^32 * abs(sin(i + 1)))] for [i] in 0..63. *)
Definition sines : list N :=
  [3614090360; 3905402710; 606105819; 3250441966;
   4118548399; 1200080426; 2821735955; 4249261313;
   1770035416; 2336552879; 4294925233; 2304563134;
   1804603682; 4254626195; 2792965006; 1236535329;
   4129170786; 3225465664; 643717713; 3921069994;
   3593408605; 38016083; 3634488961; 3889429448;
   568446438; 3275163606; 4107603335; 1163531501;
   2850285829; 4243563512; 1735328473; 2368359562;
   4294588738; 2272392833; 1839030562; 4259657740;
   2763975236; 1272893353; 4139469664; 3200236656;
   681279174; 3936430074; 3572445317; 76029189;
   3654602809; 3873151461; 530742520; 3299628645;
   4096336452; 1126891415; 2878612391; 4237533241;
   1700485571; 2399980690; 4293915773; 2240044497;
   1873313359; 4264355552; 2734768916; 1309151649;
   4149444226; 3174756917; 718787259; 3951481745].

Record state := State { sa : N; sb : N; sc : N; sd : N }.

Definition init : state := State 1732584193 4023233417 2562383102 271733878.

(** One of the 64 operations of a block; [m] is the block's 16 words. *)
Definition step (m : list N) (st : state) (i : nat) : state :=
  let '(State a b c d) := st in
  let '(f, g) :=
    if (i <? 16)%nat then (N.lor (N.land b c) (N.land (not32 b) d), i)
    else if (i <? 32)%nat then
      (N.lor (N.land d b) (N.land (not32 d) c), ((5 * i + 1) mod 16)%nat)
    else if (i <? 48)%nat then
      (N.lxor (N.lxor b c) d, ((3 * i + 5) mod 16)%nat)
    else (N.lxor c (N.lor b (not32 d)), ((7 * i) mod 16)%nat) in
  let f' := add32 (add32 (add32 f a) (nth i sines 0)) (nth g m 0) in
  State d (add32 b (rotl32 f' (nth i shifts 0))) b c.

(** Four bytes, least significant first, to a word, and back. *)
Definition word_of_bytes (bs : list N) : N :=
  fold_right (fun b acc => b + 256 * acc) 0 bs.

Definition bytes_of_word (w : N) : list N :=
  [w mod 256; (w / 256) mod 256; (w / 65536) mod 256; (w / 16777216) mod 256].

Fixpoint words (n : nat) (bs : list N) : list N :=
  match n with
  | O => []
  | S n' => word_of_bytes (firstn 4 bs) :: words n' (skipn 4 bs)
  end.

Definition block (st : state) (bs : list N) : state :=
  let m := words 16 bs in
  let '(State a b c d) := fold_left (step m) (seq 0 64) st in
  State (add32 (sa st) a) (add32 (sb st) b) (add32 (sc st) c) (add32 (sd st) d).

Fixpoint blocks (n : nat) (st : state) (bs : list N) : state :=
  match n with
  | O => st
  | S n' => blocks n' (block st (firstn 64 bs)) (skipn 64 bs)
  end.

(** The message followed by 0x80, zeros up to 56 mod 64, and the bit
    length on 8 bytes. *)
Definition pad (bs : list N) : list N :=
  let len := List.length bs in
  let zeros := ((119 - len mod 64) mod 64)%nat in
  let bits := (8 * N.of_nat len) mod 18446744073709551616 in
  bs ++ [128] ++ repeat 0 zeros
     ++ bytes_of_word (bits mod 4294967296)
     ++ bytes_of_word (bits / 4294967296).

Definition digest (bs : list N) : list N :=
  let p := pad bs in
  let '(State a b c d) := blocks (List.length p / 64) init p in
  bytes_of_word a ++ bytes_of_word b ++ bytes_of_word c ++ bytes_of_word d.

Definition hexdigit (n : N) : ascii :=
  nth (N.to_nat n)
    (list_ascii_of_string "0123456789abcdef") "0"%char.

Definition hex_of_byte (b : N) : list ascii :=
  [hexdigit (b / 16 mod 16); hexdigit (b mod 16)].

Definition bytes_of_string (s : string) : list N :=
  map N_of_ascii (list_ascii_of_string s).

Definition hexdigest (s : string) : string :=
  string_of_list_ascii (flat_map hex_of_byte (digest (bytes_of_string s))).

End MD5.

(** ** Results of Python computations: a value or a raised exception *)

(** The exception classes the pipeline can meet.  [except
    requests.exceptions.RequestException] catches the first group, [except
    Exception] all of them. *)
Inductive exn_class :=
  | RequestException | ConnectionError | Timeout | HTTPError | JSONDecodeError
  | AttributeError | KeyError | TypeError | ValueError | OSError | RuntimeError.

Definition is_RequestException (c : exn_class) : bool :=
  match c with
  | RequestException | ConnectionError | Timeout | HTTPError
  | JSONDecodeError => true
  | _ => false
  end.

Record exn := Exn { exn_cls : exn_class; exn_str : string }.

Inductive result (A : Type) :=
  | Ok (a : A)
  | Raise (e : exn).
Arguments Ok {A} a.
Arguments Raise {A} e.

(** ** The fallback responder *)

(** The module-level dict [FALLBACK_RESPONSES]. *)
Definition FALLBACK_RESPONSES : gmap string string :=
  <["travel experience" := "One of my most memorable travel experiences was hiking through the Swiss Alps at sunrise. The way the light hit the snow-capped peaks was absolutely magical!"]>
  (<["hidden gem" := "I discovered this incredible little island in Thailand called Koh Lipe. It's not as crowded as the other islands, with crystal clear water and amazing snorkeling right off the beach!"]>
  (<["prepare for trip" := "I always research local customs first, learn a few basic phrases in the local language, pack light but smart, and make sure to try the street food - it's often the most authentic!"]>
  (<["adventure sport" := "I tried paragliding in Nepal over the Himalayas - absolutely breathtaking views and such an adrenaline rush!"]>
  (<["one country" := "That's tough! I'd probably choose Japan - it has this perfect blend of ancient tradition and futuristic innovation, amazing food, and the people are incredibly kind."]>
  ∅)))).

(** [d[k]] on a dict: [KeyError] when the key is missing. *)
Definition dict_getitem (d : gmap string string) (k : string) : result string :=
  match d !! k with
  | Some v => Ok v
  | None => Raise (Exn KeyError k)
  end.

Definition GENERIC_REPLY : string :=
  "I'd love to share more about my travel adventures! While I'm having some technical difficulties with my full capabilities, I can tell you about amazing destinations, travel tips, or cultural experiences. What would you like to know?".

Definition get_fallback_response (message : string) : result string :=
  let message_lower := PyStr.lower message in
  if ("memorable" in_str message_lower) || ("experience" in_str message_lower) then
    dict_getitem FALLBACK_RESPONSES "travel experience"
  else if ("hidden" in_str message_lower) || ("gem" in_str message_lower) then
    dict_getitem FALLBACK_RESPONSES "hidden gem"
  else if ("prepare" in_str message_lower) || ("culture" in_str message_lower) then
    dict_getitem FALLBACK_RESPONSES "prepare for trip"
  else if ("adventure" in_str message_lower) || ("sport" in_str message_lower) then
    dict_getitem FALLBACK_RESPONSES "adventure sport"
  else if ("one country" in_str message_lower) || ("rest of your life" in_str message_lower) then
    dict_getitem FALLBACK_RESPONSES "one country"
  else
    Ok GENERIC_REPLY.

(** ** Python values, as [response.json()] produces them

    A dict keeps its items in insertion order with pairwise distinct keys. *)

#[warnings="-register-all"]
Inductive pyval :=
  | PyNone
  | PyBool (b : bool)
  | PyInt (n : Z)
  | PyFloat (f : spec_float)
  | PyStr (s : string)
  | PyList (l : list pyval)
  | PyDict (d : list (string * pyval)).

(** [bool(v)] *)
Definition py_truthy (v : pyval) : bool :=
  match v with
  | PyNone => false
  | PyBool b => b
  | PyInt n => negb (n =? 0)%Z
  | PyFloat (S754_zero _) => false
  | PyFloat _ => true
  | PyStr s => PyStr.truthy s
  | PyList l => match l with [] => false | _ => true end
  | PyDict d => match d with [] => false | _ => true end
  end.

(** [type(v).__name__] *)
Definition py_type_name (v : pyval) : string :=
  match v with
  | PyNone => "NoneType"
  | PyBool _ => "bool"
  | PyInt _ => "int"
  | PyFloat _ => "float"
  | PyStr _ => "str"
  | PyList _ => "list"
  | PyDict _ => "dict"
  end.

Definition no_attribute (v : pyval) (attr : string) : exn :=
  Exn AttributeError
      ("'" +:+ py_type_name v +:+ "' object has no attribute '" +:+ attr +:+ "'").

Fixpoint assoc_get (d : list (string * pyval)) (k : string) : option pyval :=
  match d with
  | [] => None
  | (k', v) :: d' => if String.eqb k' k then Some v else assoc_get d' k
  end.

(** [data.get(key, default)]: only a dict has the method. *)
Definition py_get (data : pyval) (key : string) (default : pyval) : result pyval :=
  match data with
  | PyDict d => Ok (match assoc_get d key with Some v => v | None => default end)
  | _ => Raise (no_attribute data "get")
  end.

(** [url.encode()]: only a [str] has the method. *)
Definition py_encode (url : pyval) : result string :=
  match url with
  | PyStr s => Ok s
  | _ => Raise (no_attribute url "encode")
  end.

(** [s[:n]] *)
Definition slice_to (n : nat) (s : string) : string := String.substring 0 n s.

(** [str(o)] inside an f-string, for an optional environment value. *)
Definition str_of_env (o : option string) : string :=
  match o with Some s => s | None => "None" end.

Definition env_truthy (o : option string) : bool :=
  match o with Some s => PyStr.truthy s | None => false end.

(** ** The world outside the process *)

Record post_response := PostResponse {
  post_status : Z;
  post_reason : string;
  post_json : result pyval   (* what [response.json()] does *)
}.

Record get_response := GetResponse {
  get_status : Z;
  get_content : result string   (* what reading [response.content] does *)
}.

(** What the process did to the outside, oldest first. *)
Inductive event :=
  | EvPrint (msg : string)
  | EvLLM (prompt : string)
  | EvPost (url : string) (payload : pyval) (headers : list (string * string))
           (timeout : Z)
  | EvGet (url : pyval) (timeout : Z)
  | EvOpen (filename : string)
  | EvWrite (filename : string) (bytes : string).

(** The collaborators answer as a function of what has happened so far
    and of the request. *)
Record World := {
  llm_invoke : list event -> string -> result string;
  http_post : list event -> string -> pyval -> list (string * string) ->
              result post_response;
  http_get : list event -> pyval -> result get_response;
  (* [open(filename, "wb")]: the exception it raises, if any *)
  file_open : list event -> string -> option exn;
  (* [f.write(bytes)] and the close: the exception raised, if any, and how
     many bytes had reached the file *)
  file_write : list event -> string -> string -> option (exn * nat);
  py_repr : pyval -> string;   (* [str(data)] of a parsed JSON value *)
  (* [print(msg)]: the exception it raises, if any, as on a closed or
     broken standard output *)
  stdout_write : list event -> string -> option exn
}.

(** The environment and the outcome of the guarded imports and of the
    chain construction at module load. *)
Record Config := {
  OPENAI_API_KEY : option string;
  MURFAI_API_KEY : option string;
  LANGCHAIN_AVAILABLE : bool;
  chain_construction : result unit
}.

Definition ConversationState := list (string * string).

Record State := {
  memory : ConversationState;
  fs : gmap string string;
  trace : list event
}.

Definition log (ev : event) (st : State) : State :=
  {| memory := memory st; fs := fs st; trace := (trace st ++ [ev])%list |}.

Definition set_memory (m : ConversationState) (st : State) : State :=
  {| memory := m; fs := fs st; trace := trace st |}.

Definition set_fs (f : gmap string string) (st : State) : State :=
  {| memory := memory st; fs := f; trace := trace st |}.

(** ** Computations: state passing, with exceptions *)

Definition M (A : Type) : Type := State -> result A * State.

#[global] Instance M_ret : MRet M := fun A (a : A) st => (Ok a, st).

#[global] Instance M_bind : MBind M := fun A B (k : A -> M B) (m : M A) st =>
  match m st with
  | (Ok a, st') => k a st'
  | (Raise e, st') => (Raise e, st')
  end.

Definition lift {A} (r : result A) : M A := fun st => (r, st).

(** [try: body except Exception as e: handler e] *)
Definition try_except {A} (body : M A) (handler : exn -> M A) : M A := fun st =>
  match body st with
  | (Ok a, st') => (Ok a, st')
  | (Raise e, st') => handler e st'
  end.

(** [print(msg)]: the line reaches the standard output, or the write
    raises and nothing is printed. *)
Definition print (W : World) (msg : string) : M unit := fun st =>
  match stdout_write W (trace st) msg with
  | None => (Ok tt, log (EvPrint msg) st)
  | Some e => (Raise e, st)
  end.

(** ** The pipeline *)

Definition nl : string := String (ascii_of_nat 10) "".

Definition PERSONA : string :=
  "As an adventurous and globetrotting college student, you're constantly on the lookout for new cultures, experiences, and breathtaking landscapes. You've visited numerous countries, immersing yourself in local traditions, and you're always eager to swap travel stories and offer tips on exciting destinations.".

(** The prompt template with its two input variables filled in. *)
Definition template (chat_history user_message : string) : string :=
  PERSONA +:+ nl +:+ "        " +:+ chat_history +:+ nl +:+
  "        User: " +:+ user_message +:+ nl +:+ "        Chatbot:".

(** The [chat_history] variable a [ConversationBufferMemory] loads: one
    [Human:]/[AI:] pair of lines per stored exchange. *)
Fixpoint buffer_string (m : ConversationState) : string :=
  match m with
  | [] => ""
  | [(q, a)] => "Human: " +:+ q +:+ nl +:+ "AI: " +:+ a
  | (q, a) :: m' => "Human: " +:+ q +:+ nl +:+ "AI: " +:+ a +:+ nl +:+ buffer_string m'
  end.

Definition MURFAI_URL : string := "https://api.murf.ai/v1/speech/generate".
Definition MURF_VOICE_ID : string := "Caleb".

(** The dict [get_generated_audio] returns. *)
Record generated_response := GeneratedResponse {
  gr_type : string;
  gr_audio_url : pyval;
  gr_response : pyval
}.

(** The dict [download_audio_file] returns. *)
Record final_response := FinalResponse {
  fr_content : option string;
  fr_error : string;
  fr_filename : string
}.

(** The [payload] dict of a synthesis request. *)
Definition murf_payload (text : string) : pyval :=
  PyDict [("voiceId", PyStr MURF_VOICE_ID);
          ("text", PyStr text);
          ("format", PyStr "MP3")].

Section Pipeline.

Variable W : World.
Variable cfg : Config.

(** [llm_chain] after module load: built only when the imports worked
    and the key is set, and left [None] when the construction raised. *)
Definition llm_chain : option unit :=
  if LANGCHAIN_AVAILABLE cfg && env_truthy (OPENAI_API_KEY cfg) then
    match chain_construction cfg with
    | Ok chain => Some chain
    | Raise _ => None
    end
  else None.

(** [bool(llm_chain)]: a chain object is truthy, [None] is not. *)
Definition chain_truthy (c : option unit) : bool :=
  match c with Some _ => true | None => false end.

(** [llm_chain.predict(user_message=...)]: load the memory, fill the
    template, call the model, and store the exchange once the model has
    answered. *)
Definition predict (user_message : string) : M string := fun st =>
  let prompt := template (buffer_string (memory st)) user_message in
  let st1 := log (EvLLM prompt) st in
  match llm_invoke W (trace st) prompt with
  | Ok text => (Ok text, set_memory (memory st ++ [(user_message, text)])%list st1)
  | Raise e => (Raise e, st1)
  end.

Definition get_text_response (user_message : string) : M string :=
  if chain_truthy llm_chain && env_truthy (OPENAI_API_KEY cfg) then
    try_except
      (response ← predict user_message;
       mret response)
      (fun e =>
         print W ("LLM chain error: " +:+ exn_str e);;
         lift (get_fallback_response user_message))
  else
    lift (get_fallback_response user_message).

Definition headers_murf : list (string * string) :=
  [("accept", "application/json");
   ("content-type", "application/json");
   ("Authorization", "Bearer " +:+ str_of_env (MURFAI_API_KEY cfg))].

(** [requests.post(...)] *)
Definition requests_post (url : string) (json : pyval)
    (headers : list (string * string)) (timeout : Z) : M post_response :=
  fun st => (http_post W (trace st) url json headers,
             log (EvPost url json headers timeout) st).

(** [response.raise_for_status()] *)
Definition raise_for_status (url : string) (r : post_response) : result unit :=
  let code := post_status r in
  if (400 <=? code)%Z && (code <? 500)%Z then
    Raise (Exn HTTPError (PyStr.of_Z code +:+ " Client Error: " +:+
                          post_reason r +:+ " for url: " +:+ url))
  else if (500 <=? code)%Z && (code <? 600)%Z then
    Raise (Exn HTTPError (PyStr.of_Z code +:+ " Server Error: " +:+
                          post_reason r +:+ " for url: " +:+ url))
  else Ok tt.

Definition get_generated_audio (text : string) : M generated_response :=
  if negb (env_truthy (MURFAI_API_KEY cfg)) then
    mret (GeneratedResponse "ERROR" (PyStr "")
            (PyStr "Murf AI API key not configured"))
  else
    let payload := murf_payload text in
    let generated_response := GeneratedResponse "" (PyStr "") (PyStr "") in
    try_except
      (response ← requests_post MURFAI_URL payload headers_murf 30;
       lift (raise_for_status MURFAI_URL response);;
       data ← lift (post_json response);
       audio_url ← lift (py_get data "audioFile" (PyStr ""));
       if py_truthy audio_url then
         mret (GeneratedResponse "SUCCESS" audio_url data)
       else
         mret (GeneratedResponse "ERROR" (gr_audio_url generated_response)
                 (PyStr ("No audio URL returned. Response: " +:+ py_repr W data))))
      (fun e =>
         if is_RequestException (exn_cls e) then
           mret (GeneratedResponse "ERROR" (gr_audio_url generated_response)
                   (PyStr ("API Request failed: " +:+ exn_str e)))
         else
           mret (GeneratedResponse "ERROR" (gr_audio_url generated_response)
                   (PyStr ("Unexpected error: " +:+ exn_str e)))).

(** [requests.get(url, timeout=15, stream=True)] *)
Definition requests_get (url : pyval) (timeout : Z) : M get_response :=
  fun st => (http_get W (trace st) url, log (EvGet url timeout) st).

Definition download_audio_file (url : pyval) : M final_response :=
  let final_response := FinalResponse None "" "" in
  try_except
    (response ← requests_get url 15;
     if negb (get_status response =? 200)%Z then
       mret (FinalResponse (fr_content final_response)
               ("Download failed. Status: " +:+ PyStr.of_Z (get_status response))
               (fr_filename final_response))
     else
       encoded ← lift (py_encode url);
       let filename_hash := slice_to 8 (MD5.hexdigest encoded) in
       let filename := "audio_" +:+ filename_hash +:+ ".mp3" in
       content ← lift (get_content response);
       mret (FinalResponse (Some content) (fr_error final_response) filename))
    (fun e =>
       mret (FinalResponse (fr_content final_response)
               ("Download error: " +:+ exn_str e)
               (fr_filename final_response))).

(** [with open(filename, "wb") as f: f.write(content)]: [open] creates or
    truncates the file, [write] fills it, and leaving the block closes it
    also when [write] raised. *)
Definition write_file (filename : string) (content : option string) : M unit :=
  fun st =>
    let st1 := log (EvOpen filename) st in
    match file_open W (trace st) filename with
    | Some e => (Raise e, st1)
    | None =>
        let st2 := set_fs (<[filename := ""]> (fs st1)) st1 in
        match content with
        | None =>
            (Raise (Exn TypeError "a bytes-like object is required, not 'NoneType'"),
             st2)
        | Some bytes =>
            let st3 := log (EvWrite filename bytes) st2 in
            match file_write W (trace st2) filename bytes with
            | None => (Ok tt, set_fs (<[filename := bytes]> (fs st3)) st3)
            | Some (e, written) =>
                (Raise e, set_fs (<[filename := slice_to written bytes]> (fs st3)) st3)
            end
        end
    end.

Definition get_text_and_audio_response (user_message : string)
    : M (string * option string) :=
  text_reply ← get_text_response user_message;
  if env_truthy (MURFAI_API_KEY cfg) then
    audio_event ← get_generated_audio text_reply;
    if String.eqb (gr_type audio_event) "SUCCESS" then
      let audio_url := gr_audio_url audio_event in
      download_result ← download_audio_file audio_url;
      if negb (PyStr.truthy (fr_error download_result)) then
        let filename := fr_filename download_result in
        write_file filename (fr_content download_result);;
        mret (text_reply, Some filename)
      else mret (text_reply, None)
    else mret (text_reply, None)
  else mret (text_reply, None).

End Pipeline.

(** ** The fallback responder as the specification words it

    An ordered list of (trigger keywords, canned reply) rules; the first
    rule one of whose keywords occurs in the lower-cased utterance wins, and
    a generic clarifying reply is given when none does. *)

Definition fallback_rules : list (list string * string) :=
  [ (["memorable"; "experience"],
     "One of my most memorable travel experiences was hiking through the Swiss Alps at sunrise. The way the light hit the snow-capped peaks was absolutely magical!");
    (["hidden"; "gem"],
     "I discovered this incredible little island in Thailand called Koh Lipe. It's not as crowded as the other islands, with crystal clear water and amazing snorkeling right off the beach!");
    (["prepare"; "culture"],
     "I always research local customs first, learn a few basic phrases in the local language, pack light but smart, and make sure to try the street food - it's often the most authentic!");
    (["adventure"; "sport"],
     "I tried paragliding in Nepal over the Himalayas - absolutely breathtaking views and such an adrenaline rush!");
    (["one country"; "rest of your life"],
     "That's tough! I'd probably choose Japan - it has this perfect blend of ancient tradition and futuristic innovation, amazing food, and the people are incredibly kind.") ].

Definition rule_matches (lowered : string) (rule : list string * string) : bool :=
  existsb (fun keyword => keyword in_str lowered) (fst rule).

Definition respond_spec (utterance : string) : string :=
  match find (rule_matches (PyStr.lower utterance)) fallback_rules with
  | Some rule => snd rule
  | None => GENERIC_REPLY
  end.

(** ** The file name pattern [audio_<8-hex-chars>.mp3] *)

Definition is_hex (c : ascii) : bool :=
  existsb (Ascii.eqb c) (list_ascii_of_string "0123456789abcdef").

Definition matches_audio_pattern (f : string) : bool :=
  (String.length f =? 18)%nat &&
  String.eqb (String.substring 0 6 f) "audio_" &&
  forallb is_hex (list_ascii_of_string (String.substring 6 8 f)) &&
  String.eqb (String.substring 14 4 f) ".mp3".

(** A download succeeded when its [error] field is falsy, which is what the
    orchestrator tests. *)
Definition download_succeeded (r : final_response) : bool :=
  negb (PyStr.truthy (fr_error r)).

(** What a download returns, read off the answers of the host. *)
Definition download_outcome (W : World) (url : pyval) (st : State) : final_response :=
  match http_get W (trace st) url with
  | Raise e => FinalResponse None ("Download error: " +:+ exn_str e) ""
  | Ok response =>
      if (get_status response =? 200)%Z then
        match py_encode url, get_content response with
        | Raise e, _ | Ok _, Raise e =>
            FinalResponse None ("Download error: " +:+ exn_str e) ""
        | Ok encoded, Ok content =>
            FinalResponse (Some content) ""
              ("audio_" +:+ slice_to 8 (MD5.hexdigest encoded) +:+ ".mp3")
        end
      else
        FinalResponse None
          ("Download failed. Status: " +:+ PyStr.of_Z (get_status response)) ""
  end.

(** What the two [except] clauses of [get_generated_audio] return. *)
Definition synthesis_error (e : exn) : generated_response :=
  if is_RequestException (exn_cls e) then
    GeneratedResponse "ERROR" (PyStr "") (PyStr ("API Request failed: " +:+ exn_str e))
  else
    GeneratedResponse "ERROR" (PyStr "") (PyStr ("Unexpected error: " +:+ exn_str e)).

(** What a synthesis request returns once the key is set, read off the
    answers of the host. *)
Definition synthesis_outcome (W : World) (cfg : Config) (text : string)
    (st : State) : generated_response :=
  match http_post W (trace st) MURFAI_URL (murf_payload text) (headers_murf cfg) with
  | Raise e => synthesis_error e
  | Ok response =>
      match raise_for_status MURFAI_URL response with
      | Raise e => synthesis_error e
      | Ok _ =>
          match post_json response with
          | Raise e => synthesis_error e
          | Ok data =>
              match py_get data "audioFile" (PyStr "") with
              | Raise e => synthesis_error e
              | Ok audio_url =>
                  if py_truthy audio_url then
                    GeneratedResponse "SUCCESS" audio_url data
                  else
                    GeneratedResponse "ERROR" (PyStr "")
                      (PyStr ("No audio URL returned. Response: " +:+ py_repr W data))
              end
          end
      end
  end.

(** What [get_text_response] returns and the state it ends in, read off
    the answers of the model and of the standard output. *)
Definition text_outcome (W : World) (cfg : Config) (user_message : string)
    (st : State) : result string * State :=
  if chain_truthy (llm_chain cfg) && env_truthy (OPENAI_API_KEY cfg) then
    let prompt := template (buffer_string (memory st)) user_message in
    let st1 := log (EvLLM prompt) st in
    match llm_invoke W (trace st) prompt with
    | Ok text =>
        (Ok text, set_memory (memory st ++ [(user_message, text)])%list st1)
    | Raise e =>
        match stdout_write W (trace st1) ("LLM chain error: " +:+ exn_str e) with
        | None =>
            (Ok (respond_spec user_message),
             log (EvPrint ("LLM chain error: " +:+ exn_str e)) st1)
        | Some e' => (Raise e', st1)
        end
    end
  else (Ok (respond_spec user_message), st).

(** What the text generator does to the outside: it calls the model and
    prints. *)
Definition is_text_event (ev : event) : bool :=
  match ev with EvLLM _ | EvPrint _ => true | _ => false end.

(** The requests that reach the synthesis endpoint. *)
Definition is_synthesis_call (ev : event) : bool :=
  match ev with EvPost _ _ _ _ => true | _ => false end.

(** What the audio stages of a turn do with the reply, read off the
    outcomes of the stages. *)
Definition audio_outcome (W : World) (cfg : Config) (text_reply : string)
    (st1 : State) : result (string * option string) * State :=
  if env_truthy (MURFAI_API_KEY cfg) then
    let audio_event := synthesis_outcome W cfg text_reply st1 in
    let st2 := log (EvPost MURFAI_URL (murf_payload text_reply)
                      (headers_murf cfg) 30) st1 in
    if String.eqb (gr_type audio_event) "SUCCESS" then
      let audio_url := gr_audio_url audio_event in
      let download_result := download_outcome W audio_url st2 in
      let st3 := log (EvGet audio_url 15) st2 in
      if download_succeeded download_result then
        match write_file W (fr_filename download_result)
                (fr_content download_result) st3 with
        | (Ok _, st4) => (Ok (text_reply, Some (fr_filename download_result)), st4)
        | (Raise e, st4) => (Raise e, st4)
        end
      else (Ok (text_reply, None), st3)
    else (Ok (text_reply, None), st2)
  else (Ok (text_reply, None), st1).

(** What a turn returns and the state it ends in. *)
Definition turn_outcome (W : World) (cfg : Config) (user_message : string)
    (st : State) : result (string * option string) * State :=
  match text_outcome W cfg user_message st with
  | (Ok text_reply, st1) => audio_outcome W cfg text_reply st1
  | (Raise e, st1) => (Raise e, st1)
  end.

(** The statement of C10 as it is worded: every record returned has type
    [SUCCESS] or [ERROR], and a [SUCCESS] carries a non-empty string. *)
Definition success_carries_string (r : generated_response) : Prop :=
  (gr_type r = "SUCCESS" \/ gr_type r = "ERROR") /\
  (gr_type r = "SUCCESS" -> exists s, gr_audio_url r = PyStr s /\ s <> "").

(** ** Sample hosts, used to exercise the statements *)

Definition fresh : State := {| memory := []; fs := ∅; trace := [] |}.

Definition host (llm : result string) (post : result post_response)
    (get : result get_response) (opened : option exn)
    (written : option (exn * nat)) : World :=
  {| llm_invoke := fun _ _ => llm;
     http_post := fun _ _ _ _ => post;
     http_get := fun _ _ => get;
     file_open := fun _ _ => opened;
     file_write := fun _ _ _ => written;
     py_repr := fun _ => "{...}";
     stdout_write := fun _ _ => None |}.

(** The same host once the standard output has been closed. *)
Definition closed_stdout : exn := Exn ValueError "I/O operation on closed file.".

Definition muted (W : World) : World :=
  {| llm_invoke := llm_invoke W;
     http_post := http_post W;
     http_get := http_get W;
     file_open := file_open W;
     file_write := file_write W;
     py_repr := py_repr W;
     stdout_write := fun _ _ => Some closed_stdout |}.

Definition config (openai murf : option string) : Config :=
  {| OPENAI_API_KEY := openai; MURFAI_API_KEY := murf;
     LANGCHAIN_AVAILABLE := true; chain_construction := Ok tt |}.

Definition sample_url : string := "https://murf.ai/user-upload/one-day-temp/abc.mp3".

Definition murf_ok : result post_response :=
  Ok (PostResponse 200 "OK" (Ok (PyDict [("audioFile", PyStr sample_url)]))).

Definition audio_ok : result get_response :=
  Ok (GetResponse 200 (Ok "ID3-audio-bytes")).

Definition offline : exn := Exn ConnectionError "Connection refused".

Definition murf_number : result post_response :=
  Ok (PostResponse 200 "OK" (Ok (PyDict [("audioFile", PyInt 1)]))).

Definition audio_missing : result get_response :=
  Ok (GetResponse 404 (Ok "Not Found")).

Definition disk_full : exn := Exn OSError "[Errno 28] No space left on device".

Definition read_only : exn :=
  Exn OSError "[Errno 13] Permission denied: 'audio_8802147d.mp3'".

(** ** The chat handlers of the interface

    The display history is a list of (message, reply) pairs; the handlers
    are modelled on the values they return. *)

Definition History := list (string * string).

(** The example questions the interface offers. *)
Definition examples : list string :=
  [ "What's the most memorable travel experience you've had so far?";
    "Share a hidden gem destination that you discovered during your travels.";
    "How do you prepare for a trip to a new country with a different culture?";
    "Tell me about an exciting activity or adventure sport you've tried during your travels.";
    "If you could only visit one country for the rest of your life, which one would it be, and why?" ].

(** [os.path.exists(path)] among the files of the working directory. *)
Definition path_exists (path : string) : M bool :=
  fun st => (Ok (bool_decide (is_Some (fs st !! path))), st).

Section Handlers.

Variable W : World.
Variable cfg : Config.

Definition chat_bot_response (message : string) (history : option History)
    : M (History * History * option string) :=
  '(text_reply, audio_file) ← get_text_and_audio_response W cfg message;
  let history := match history with None => [] | Some h => h end in
  let history := (history ++ [(message, text_reply)])%list in
  (* [audio_file and os.path.exists(audio_file)] *)
  available ← match audio_file with
              | Some path =>
                  if PyStr.truthy path then path_exists path else mret false
              | None => mret false
              end;
  if (available : bool) then mret (history, history, audio_file)
  else mret (history, history, None).

(** The callback of the text box and of the send button. *)
Definition respond (message : string) (chat_history : option History)
    : M (string * History * option string) :=
  '(new_history, _, audio) ← chat_bot_response message chat_history;
  mret ("", new_history, audio).

(** The interface hands each [respond] the chat value the previous one
    returned: a session is a run of submitted messages. *)
Fixpoint session (messages : list string) (chat_history : option History)
    : M (option History) :=
  match messages with
  | [] => mret chat_history
  | message :: rest =>
      '(_, new_history, _) ← respond message chat_history;
      session rest (Some new_history)
  end.

End Handlers.

(** The callback of the clear button: [lambda: ([], None)]. *)
Definition clear_chat : History * option string := ([], None).

(** All trigger keywords, in the order they are tried. *)
Definition keywords : list string := flat_map fst fallback_rules.


(** [history] once [None] has been replaced by the empty list. *)
Definition shown (history : option History) : History :=
  match history with None => [] | Some h => h end.

(** * Properties *)

(** ** Strings *)

Lemma lower_ascii_idem c : PyStr.lower_ascii (PyStr.lower_ascii c) = PyStr.lower_ascii c.
Proof.
  destruct c as [[] [] [] [] [] [] [] []]; reflexivity.
Qed.

Lemma lower_idem s : PyStr.lower (PyStr.lower s) = PyStr.lower s.
Proof.
  induction s as [|c s IH]; simpl; [reflexivity|].
  now rewrite lower_ascii_idem, IH.
Qed.

Lemma truthy_nonempty s : PyStr.truthy s = true <-> s <> "".
Proof. destruct s; simpl; split; congruence. Qed.

(** ** The fallback responder *)

Lemma fallback_keys_present :
  dict_getitem FALLBACK_RESPONSES "travel experience" = Ok (snd (nth 0 fallback_rules ([], ""))) /\
  dict_getitem FALLBACK_RESPONSES "hidden gem" = Ok (snd (nth 1 fallback_rules ([], ""))) /\
  dict_getitem FALLBACK_RESPONSES "prepare for trip" = Ok (snd (nth 2 fallback_rules ([], ""))) /\
  dict_getitem FALLBACK_RESPONSES "adventure sport" = Ok (snd (nth 3 fallback_rules ([], ""))) /\
  dict_getitem FALLBACK_RESPONSES "one country" = Ok (snd (nth 4 fallback_rules ([], ""))).
Proof. repeat split; vm_compute; reflexivity. Qed.

Lemma get_fallback_response_spec message :
  get_fallback_response message = Ok (respond_spec message).
Proof.
  destruct fallback_keys_present as (K1 & K2 & K3 & K4 & K5).
  unfold get_fallback_response, respond_spec, fallback_rules, rule_matches.
  cbn [find existsb fst snd].
  rewrite !orb_false_r.
  destruct (_ || _); [exact K1|].
  destruct (_ || _); [exact K2|].
  destruct (_ || _); [exact K3|].
  destruct (_ || _); [exact K4|].
  destruct (_ || _); [exact K5|].
  reflexivity.
Qed.

Lemma respond_spec_nonempty message : respond_spec message <> "".
Proof.
  unfold respond_spec, fallback_rules. cbn [find].
  repeat (destruct (rule_matches _ _); [cbn [snd]; discriminate|]).
  discriminate.
Qed.

(** C3: the fallback responder is total and never raises; it lower-cases
    the utterance and answers with the reply of the first keyword group, in
    the order memorable/experience, hidden/gem, prepare/culture,
    adventure/sport, one country/rest of your life, one of whose keywords
    occurs in it, or with the generic reply when none does; the match is
    case-insensitive, and an utterance with both "hidden" and "memorable"
    gets the memorable/experience reply. *)
Theorem get_fallback_response_first_match (message : string) :
  get_fallback_response message = Ok (respond_spec message) /\
  get_fallback_response (PyStr.lower message) = get_fallback_response message /\
  (find (rule_matches (PyStr.lower message)) fallback_rules = None ->
   get_fallback_response message = Ok GENERIC_REPLY) /\
  ("hidden" in_str PyStr.lower message = true ->
   "memorable" in_str PyStr.lower message = true ->
   get_fallback_response message = dict_getitem FALLBACK_RESPONSES "travel experience" /\
   get_fallback_response message = Ok (snd (nth 0 fallback_rules ([], "")))).
Proof.
  split; [apply get_fallback_response_spec|].
  split; [unfold get_fallback_response; now rewrite lower_idem|].
  split.
  - intros H. rewrite get_fallback_response_spec. unfold respond_spec. now rewrite H.
  - intros _ Hm.
    assert (E : get_fallback_response message =
                dict_getitem FALLBACK_RESPONSES "travel experience").
    { unfold get_fallback_response. now rewrite Hm. }
    split; [exact E|]. rewrite E. apply fallback_keys_present.
Qed.

Lemma get_fallback_response_first_match_witness :
  "hidden" in_str PyStr.lower "A HIDDEN but Memorable place" = true /\
  "memorable" in_str PyStr.lower "A HIDDEN but Memorable place" = true /\
  get_fallback_response "A HIDDEN but Memorable place" =
    Ok (snd (nth 0 fallback_rules ([], ""))).
Proof.
  split; [reflexivity|]. split; [reflexivity|].
  apply (get_fallback_response_first_match "A HIDDEN but Memorable place");
    reflexivity.
Defined.

(** ** MD5 digests and file names *)

Example md5_empty : MD5.hexdigest "" = "d41d8cd98f00b204e9800998ecf8427e".
Proof. vm_compute. reflexivity. Qed.

Example md5_abc : MD5.hexdigest "abc" = "900150983cd24fb0d6963f7d28e17f72".
Proof. vm_compute. reflexivity. Qed.

Example md5_two_blocks :
  MD5.hexdigest "xxxxxxxxxxxxxxxxxxxxxxxxxxxxxxxxxxxxxxxxxxxxxxxxxxxxxxxx"
  = "668a72d5ba17f08e62dabcafad6db14b".
Proof. vm_compute. reflexivity. Qed.

Lemma length_string_of_list_ascii l :
  String.length (string_of_list_ascii l) = List.length l.
Proof. induction l; simpl; congruence. Qed.

Lemma hexdigit_is_hex n : is_hex (MD5.hexdigit n) = true.
Proof.
  unfold MD5.hexdigit.
  generalize (N.to_nat n); intros k.
  do 17 (destruct k as [|k]; [reflexivity|]).
  reflexivity.
Qed.

Lemma hex_of_byte_is_hex b : forallb is_hex (MD5.hex_of_byte b) = true.
Proof. unfold MD5.hex_of_byte. simpl. now rewrite !hexdigit_is_hex. Qed.

Lemma flat_map_hex bs : forallb is_hex (flat_map MD5.hex_of_byte bs) = true.
Proof.
  induction bs as [|b bs IH]; [reflexivity|].
  cbn [flat_map]. rewrite forallb_app, hex_of_byte_is_hex, IH. reflexivity.
Qed.

Lemma flat_map_hex_length bs :
  List.length (flat_map MD5.hex_of_byte bs) = (2 * List.length bs)%nat.
Proof.
  induction bs as [|b bs IH]; [reflexivity|].
  cbn [flat_map]. rewrite length_app, IH. simpl. lia.
Qed.

Lemma digest_length bs : List.length (MD5.digest bs) = 16%nat.
Proof.
  unfold MD5.digest.
  destruct (MD5.blocks _ _ _) as [a b c d]. reflexivity.
Qed.

Lemma hexdigest_length s : String.length (MD5.hexdigest s) = 32%nat.
Proof.
  unfold MD5.hexdigest.
  now rewrite length_string_of_list_ascii, flat_map_hex_length, digest_length.
Qed.

Lemma hexdigest_is_hex s :
  forallb is_hex (list_ascii_of_string (MD5.hexdigest s)) = true.
Proof.
  unfold MD5.hexdigest.
  rewrite list_ascii_of_string_of_list_ascii. apply flat_map_hex.
Qed.

Lemma slice_to_firstn n s :
  list_ascii_of_string (slice_to n s) = firstn n (list_ascii_of_string s).
Proof.
  unfold slice_to. revert s.
  induction n as [|n IH]; intros [|c s]; simpl; try reflexivity.
  now rewrite IH.
Qed.

Lemma length_list_ascii s : List.length (list_ascii_of_string s) = String.length s.
Proof. induction s; simpl; congruence. Qed.

Lemma forallb_firstn {A} (f : A -> bool) n l :
  forallb f l = true -> forallb f (firstn n l) = true.
Proof.
  revert l. induction n as [|n IH]; intros [|x l]; simpl; try reflexivity.
  intros [-> H]%andb_true_iff. now rewrite IH.
Qed.

Lemma filename_hash_shape s :
  String.length (slice_to 8 (MD5.hexdigest s)) = 8%nat /\
  forallb is_hex (list_ascii_of_string (slice_to 8 (MD5.hexdigest s))) = true.
Proof.
  split.
  - rewrite <- length_list_ascii, slice_to_firstn, length_firstn,
      length_list_ascii, hexdigest_length. reflexivity.
  - rewrite slice_to_firstn. apply forallb_firstn, hexdigest_is_hex.
Qed.

Lemma audio_filename_matches h :
  String.length h = 8%nat ->
  forallb is_hex (list_ascii_of_string h) = true ->
  matches_audio_pattern ("audio_" +:+ h +:+ ".mp3") = true.
Proof.
  intros Hlen Hhex.
  do 8 (destruct h as [|? h]; [discriminate Hlen|]).
  destruct h; [|discriminate Hlen].
  unfold matches_audio_pattern.
  change (forallb is_hex [a; a0; a1; a2; a3; a4; a5; a6] = true) in Hhex.
  change (true && true && forallb is_hex [a; a0; a1; a2; a3; a4; a5; a6] && true
          = true).
  now rewrite Hhex.
Qed.

(** ** The audio fetcher *)

Section Fetcher.

Variable W : World.

Lemma download_audio_file_run url st :
  download_audio_file W url st =
  (Ok (download_outcome W url st), log (EvGet url 15) st).
Proof.
  unfold download_audio_file, download_outcome, try_except, requests_get,
    mbind, M_bind, mret, M_ret, lift.
  destruct (http_get W (trace st) url) as [response|e]; [|reflexivity].
  destruct (get_status response =? 200)%Z; cbn [negb]; [|reflexivity].
  destruct (py_encode url) as [encoded|e]; [|reflexivity].
  destruct (get_content response) as [content|e]; reflexivity.
Qed.

Lemma download_succeeded_inv url st :
  download_succeeded (download_outcome W url st) = true ->
  exists s response content,
    url = PyStr s /\
    http_get W (trace st) url = Ok response /\
    get_status response = 200%Z /\
    get_content response = Ok content /\
    download_outcome W url st =
      FinalResponse (Some content) ""
        ("audio_" +:+ slice_to 8 (MD5.hexdigest s) +:+ ".mp3").
Proof.
  unfold download_succeeded, download_outcome.
  destruct (http_get W (trace st) url) as [response|e]; [|discriminate].
  destruct (get_status response =? 200)%Z eqn:Hs; [|discriminate].
  apply Z.eqb_eq in Hs.
  destruct url as [| | | |s| |]; try (cbn; discriminate). cbn [py_encode].
  destruct (get_content response) as [content|e] eqn:Hc; [|discriminate].
  intros _. exists s, response, content. auto.
Qed.

End Fetcher.

(** C5: the file name of a successful download is a function of the URL
    alone, [audio_] followed by the first 8 hex characters of the MD5 digest
    of the URL and [.mp3]; it matches [audio_<8-hex-chars>.mp3], and two
    successful downloads of one URL, whatever the hosts answer, carry the
    same file name. *)
Theorem download_filename_deterministic (W1 W2 : World) (url : pyval)
    (st1 st2 st1' st2' : State) (r1 r2 : final_response) :
  download_audio_file W1 url st1 = (Ok r1, st1') ->
  download_succeeded r1 = true ->
  download_audio_file W2 url st2 = (Ok r2, st2') ->
  download_succeeded r2 = true ->
  (exists s, url = PyStr s /\
     fr_filename r1 = "audio_" +:+ slice_to 8 (MD5.hexdigest s) +:+ ".mp3") /\
  matches_audio_pattern (fr_filename r1) = true /\
  fr_filename r1 = fr_filename r2.
Proof.
  rewrite !download_audio_file_run.
  intros [= <- _] H1 [= <- _] H2.
  apply download_succeeded_inv in H1 as (s1 & ? & ? & -> & _ & _ & _ & ->).
  apply download_succeeded_inv in H2 as (s2 & ? & ? & [= <-] & _ & _ & _ & ->).
  cbn [fr_filename].
  split; [eauto|]. split; [|reflexivity].
  apply audio_filename_matches; apply filename_hash_shape.
Qed.

Lemma download_filename_deterministic_witness :
  matches_audio_pattern
    (fr_filename (FinalResponse (Some "ID3-audio-bytes") "" "audio_8802147d.mp3"))
  = true /\
  fr_filename (FinalResponse (Some "ID3-audio-bytes") "" "audio_8802147d.mp3") =
  fr_filename (FinalResponse (Some "other bytes") "" "audio_8802147d.mp3").
Proof.
  pose (W1 := host (Raise offline) murf_ok audio_ok None None).
  pose (W2 := host (Raise offline) murf_ok
                (Ok (GetResponse 200 (Ok "other bytes"))) None None).
  refine (proj2 (download_filename_deterministic W1 W2 (PyStr sample_url)
            fresh (log (EvPrint "again") fresh) _ _
            (FinalResponse (Some "ID3-audio-bytes") "" "audio_8802147d.mp3")
            (FinalResponse (Some "other bytes") "" "audio_8802147d.mp3")
            _ _ _ _));
    vm_compute; reflexivity.
Defined.

(** ** The text generator *)

Section Generator.

Variable W : World.
Variable cfg : Config.

Lemma get_text_response_run user_message st :
  get_text_response W cfg user_message st = text_outcome W cfg user_message st.
Proof.
  unfold get_text_response, text_outcome.
  destruct (chain_truthy (llm_chain cfg) && env_truthy (OPENAI_API_KEY cfg)).
  - unfold try_except, predict, mbind, M_bind, mret, M_ret, print, lift.
    destruct (llm_invoke W _ _) as [text|e]; [reflexivity|].
    cbn [log trace].
    destruct (stdout_write W _ _); [reflexivity|].
    now rewrite get_fallback_response_spec.
  - unfold lift. now rewrite get_fallback_response_spec.
Qed.

Lemma text_outcome_fs user_message st :
  fs (snd (text_outcome W cfg user_message st)) = fs st.
Proof.
  unfold text_outcome.
  destruct (_ && _); [|reflexivity].
  destruct (llm_invoke W _ _); [reflexivity|].
  destruct (stdout_write W _ _); reflexivity.
Qed.

Lemma text_outcome_trace user_message st :
  exists new,
    trace (snd (text_outcome W cfg user_message st)) = (trace st ++ new)%list /\
    Forall (fun ev => is_text_event ev = true) new.
Proof.
  unfold text_outcome.
  destruct (_ && _).
  - destruct (llm_invoke W _ _); [|destruct (stdout_write W _ _)];
      cbn [snd set_memory log trace]; rewrite <- ?app_assoc;
      (eexists; split; [reflexivity|]); repeat constructor.
  - exists []. cbn [snd]. rewrite app_nil_r. split; [reflexivity|constructor].
Qed.

(** The generator raises only what its diagnostic print raised. *)
Lemma text_outcome_raise user_message st e' :
  fst (text_outcome W cfg user_message st) = Raise e' ->
  exists e,
    llm_invoke W (trace st) (template (buffer_string (memory st)) user_message)
      = Raise e /\
    stdout_write W
      (trace st ++ [EvLLM (template (buffer_string (memory st)) user_message)])%list
      ("LLM chain error: " +:+ exn_str e) = Some e'.
Proof.
  unfold text_outcome.
  destruct (_ && _); [|discriminate].
  destruct (llm_invoke W _ _) as [text|e]; [discriminate|].
  cbn [log trace].
  destruct (stdout_write W _ _) as [e''|] eqn:Hp; [|discriminate].
  intros [= <-]. eauto.
Qed.

(** With a standard output that takes every line, the generator returns. *)
Lemma text_outcome_returns user_message st :
  (forall tr msg, stdout_write W tr msg = None) ->
  exists text_reply st1, text_outcome W cfg user_message st = (Ok text_reply, st1).
Proof.
  intros Hout. unfold text_outcome.
  destruct (_ && _); [|eauto].
  destruct (llm_invoke W _ _); [eauto|]. rewrite Hout. eauto.
Qed.

Lemma llm_chain_None_unconfigured :
  llm_chain cfg = None <->
  LANGCHAIN_AVAILABLE cfg = false \/ env_truthy (OPENAI_API_KEY cfg) = false \/
  exists e, chain_construction cfg = Raise e.
Proof.
  unfold llm_chain.
  destruct (LANGCHAIN_AVAILABLE cfg), (env_truthy (OPENAI_API_KEY cfg)),
    (chain_construction cfg) as [[]|e]; cbn; split; intros H;
    try discriminate H; try reflexivity; eauto;
    destruct H as [H|[H|[? H]]]; discriminate H.
Qed.

End Generator.

(** C7, as amended: when the model backend is unconfigured, or its call
    raises and the diagnostic line of the handler is printed, the text
    generator does not raise and returns exactly what the fallback
    responder returns for that utterance.  On either path the conversation
    memory is what it was before the call, and the generator raises only
    when the backend raised and the print of the diagnostic line raised in
    turn: that exception then reaches the caller. *)
Theorem get_text_response_falls_back (W : World) (cfg : Config)
    (user_message : string) (st : State) :
  llm_chain cfg = None \/
  (exists e, llm_invoke W (trace st)
               (template (buffer_string (memory st)) user_message) = Raise e) ->
  memory (snd (get_text_response W cfg user_message st)) = memory st /\
  (llm_chain cfg = None \/
   (exists e,
      llm_invoke W (trace st)
        (template (buffer_string (memory st)) user_message) = Raise e /\
      stdout_write W
        (trace st ++ [EvLLM (template (buffer_string (memory st)) user_message)])%list
        ("LLM chain error: " +:+ exn_str e) = None) ->
   exists reply st',
     get_text_response W cfg user_message st = (Ok reply, st') /\
     get_fallback_response user_message = Ok reply /\
     reply = respond_spec user_message) /\
  (forall e',
     fst (get_text_response W cfg user_message st) = Raise e' ->
     exists e,
       llm_invoke W (trace st)
         (template (buffer_string (memory st)) user_message) = Raise e /\
       stdout_write W
         (trace st ++ [EvLLM (template (buffer_string (memory st)) user_message)])%list
         ("LLM chain error: " +:+ exn_str e) = Some e').
Proof.
  intros H. rewrite get_text_response_run.
  split; [|split].
  - unfold text_outcome.
    destruct H as [-> | [e ->]]; [reflexivity|].
    destruct (_ && _); [|reflexivity].
    destruct (stdout_write W _ _); reflexivity.
  - rewrite get_fallback_response_spec. unfold text_outcome.
    intros [-> | (e & -> & Hp)]; [cbn; eauto|].
    destruct (_ && _); [|eauto]. cbn [log trace]. rewrite Hp. eauto.
  - apply text_outcome_raise.
Qed.

Lemma get_text_response_falls_back_witness :
  memory (snd (get_text_response (host (Raise offline) murf_ok audio_ok None None)
                 (config (Some "sk-test") None) "Any hidden gem?" fresh))
    = memory fresh /\
  exists reply st',
    get_text_response (host (Raise offline) murf_ok audio_ok None None)
      (config (Some "sk-test") None) "Any hidden gem?" fresh = (Ok reply, st') /\
    get_fallback_response "Any hidden gem?" = Ok reply /\
    reply = respond_spec "Any hidden gem?".
Proof.
  destruct (get_text_response_falls_back
              (host (Raise offline) murf_ok audio_ok None None)
              (config (Some "sk-test") None) "Any hidden gem?" fresh)
    as (Hm & Hr & _).
  - right. exists offline. reflexivity.
  - split; [exact Hm|]. apply Hr. right. exists offline. split; reflexivity.
Defined.

(** C7, as worded, fails: on a closed standard output the print in the
    handler raises, and the generator raises with it instead of falling
    back. *)
Lemma fallback_print_can_raise :
  llm_invoke (muted (host (Raise offline) murf_ok audio_ok None None))
    (trace fresh) (template (buffer_string (memory fresh)) "Any hidden gem?")
    = Raise offline /\
  fst (get_text_response (muted (host (Raise offline) murf_ok audio_ok None None))
         (config (Some "sk-test") None) "Any hidden gem?" fresh)
  = Raise closed_stdout.
Proof. split; reflexivity. Qed.

(** ** The speech synthesizer *)

Section Synthesizer.

Variable W : World.
Variable cfg : Config.

Lemma get_generated_audio_unconfigured text st :
  env_truthy (MURFAI_API_KEY cfg) = false ->
  get_generated_audio W cfg text st =
  (Ok (GeneratedResponse "ERROR" (PyStr "") (PyStr "Murf AI API key not configured")),
   st).
Proof.
  intros H. unfold get_generated_audio. now rewrite H.
Qed.

Lemma get_generated_audio_run text st :
  env_truthy (MURFAI_API_KEY cfg) = true ->
  get_generated_audio W cfg text st =
  (Ok (synthesis_outcome W cfg text st),
   log (EvPost MURFAI_URL (murf_payload text) (headers_murf cfg) 30) st).
Proof.
  intros H. unfold get_generated_audio, synthesis_outcome. rewrite H.
  unfold try_except, requests_post, mbind, M_bind, mret, M_ret, lift.
  cbn [negb gr_audio_url].
  destruct (http_post W _ _ _ _) as [response|e]; [|now unfold synthesis_error; destruct is_RequestException].
  destruct (raise_for_status _ _) as [[]|e]; [|now unfold synthesis_error; destruct is_RequestException].
  destruct (post_json response) as [data|e]; [|now unfold synthesis_error; destruct is_RequestException].
  destruct (py_get data _ _) as [audio_url|e]; [|now unfold synthesis_error; destruct is_RequestException].
  now destruct (py_truthy audio_url).
Qed.

Lemma synthesis_error_type e :
  gr_type (synthesis_error e) = "ERROR" /\ gr_audio_url (synthesis_error e) = PyStr "".
Proof. unfold synthesis_error. now destruct is_RequestException. Qed.

(** A [SUCCESS] comes from a response that passed the status check and
    parsed to a dict whose [audioFile] item is truthy. *)
Lemma synthesis_outcome_inv text st :
  (gr_type (synthesis_outcome W cfg text st) = "ERROR" /\
   gr_audio_url (synthesis_outcome W cfg text st) = PyStr "") \/
  (exists response data audio_url,
     http_post W (trace st) MURFAI_URL (murf_payload text) (headers_murf cfg)
       = Ok response /\
     raise_for_status MURFAI_URL response = Ok tt /\
     post_json response = Ok (PyDict data) /\
     assoc_get data "audioFile" = Some audio_url /\
     py_truthy audio_url = true /\
     synthesis_outcome W cfg text st =
       GeneratedResponse "SUCCESS" audio_url (PyDict data)).
Proof.
  unfold synthesis_outcome.
  destruct (http_post W _ _ _ _) as [response|e] eqn:Hpost;
    [|left; apply synthesis_error_type].
  destruct (raise_for_status _ _) as [[]|e] eqn:Hstatus;
    [|left; apply synthesis_error_type].
  destruct (post_json response) as [data|e] eqn:Hjson;
    [|left; apply synthesis_error_type].
  destruct data as [| | | | | |d];
    try (left; apply synthesis_error_type).
  cbn [py_get].
  destruct (assoc_get d "audioFile") as [audio_url|] eqn:Hget.
  - destruct (py_truthy audio_url) eqn:Ht.
    + right. exists response, d, audio_url. auto 10.
    + left. split; reflexivity.
  - left. split; reflexivity.
Qed.

Lemma raise_for_status_2xx url response :
  (200 <= post_status response < 300)%Z -> raise_for_status url response = Ok tt.
Proof.
  intros H. unfold raise_for_status.
  destruct (400 <=? _)%Z eqn:E1; [lia|].
  destruct (500 <=? _)%Z eqn:E2; [lia|]. reflexivity.
Qed.

End Synthesizer.

(** C8: when the synthesis request is answered with a 2xx status and the
    body parses to a JSON object, the [audioFile] item decides: absent or
    empty (falsy; for a string, the empty string), the result is an [ERROR]
    saying that no audio URL was returned; otherwise the result is a
    [SUCCESS] carrying that item as the URL and the parsed body. *)
Theorem get_generated_audio_2xx (W : World) (cfg : Config) (text : string)
    (st : State) (response : post_response) (data : list (string * pyval)) :
  env_truthy (MURFAI_API_KEY cfg) = true ->
  http_post W (trace st) MURFAI_URL (murf_payload text) (headers_murf cfg)
    = Ok response ->
  (200 <= post_status response < 300)%Z ->
  post_json response = Ok (PyDict data) ->
  let st' := log (EvPost MURFAI_URL (murf_payload text) (headers_murf cfg) 30) st in
  (assoc_get data "audioFile" = None \/
   (exists v, assoc_get data "audioFile" = Some v /\ py_truthy v = false) ->
   get_generated_audio W cfg text st =
   (Ok (GeneratedResponse "ERROR" (PyStr "")
          (PyStr ("No audio URL returned. Response: " +:+ py_repr W (PyDict data)))),
    st')) /\
  (forall audio_url,
     assoc_get data "audioFile" = Some audio_url -> py_truthy audio_url = true ->
     get_generated_audio W cfg text st =
     (Ok (GeneratedResponse "SUCCESS" audio_url (PyDict data)), st')) /\
  (forall s, py_truthy (PyStr s) = false <-> s = "").
Proof.
  intros Hkey Hpost Hcode Hjson st'.
  rewrite get_generated_audio_run by assumption.
  unfold synthesis_outcome.
  rewrite Hpost, (raise_for_status_2xx _ _ Hcode), Hjson. cbn [py_get].
  split; [|split].
  - intros [-> | (v & -> & Hv)]; [reflexivity|]. now rewrite Hv.
  - intros audio_url -> Hv. now rewrite Hv.
  - intros [|c s]; cbn; split; congruence.
Qed.

Lemma get_generated_audio_2xx_witness :
  get_generated_audio (host (Raise offline) murf_ok audio_ok None None)
    (config None (Some "murf-key")) "Hello" fresh =
  (Ok (GeneratedResponse "SUCCESS" (PyStr sample_url)
         (PyDict [("audioFile", PyStr sample_url)])),
   log (EvPost MURFAI_URL (murf_payload "Hello")
          (headers_murf (config None (Some "murf-key"))) 30) fresh).
Proof.
  refine (proj1 (proj2 (get_generated_audio_2xx
            (host (Raise offline) murf_ok audio_ok None None)
            (config None (Some "murf-key")) "Hello" fresh
            (PostResponse 200 "OK" (Ok (PyDict [("audioFile", PyStr sample_url)])))
            [("audioFile", PyStr sample_url)] _ _ _ _)) (PyStr sample_url) _ _);
    try reflexivity.
  cbn. lia.
Defined.


(** ** The orchestrator *)

Section Orchestrator.

Variable W : World.
Variable cfg : Config.

Lemma get_text_and_audio_response_run user_message st :
  get_text_and_audio_response W cfg user_message st =
  turn_outcome W cfg user_message st.
Proof.
  unfold get_text_and_audio_response, turn_outcome, mbind, M_bind.
  rewrite get_text_response_run.
  destruct (text_outcome W cfg user_message st) as [[text_reply|e] st1];
    [|reflexivity].
  unfold audio_outcome.
  destruct (env_truthy (MURFAI_API_KEY cfg)) eqn:Hkey; [|reflexivity].
  rewrite get_generated_audio_run by assumption.
  destruct (String.eqb _ "SUCCESS"); [|reflexivity].
  rewrite download_audio_file_run.
  unfold download_succeeded.
  destruct (negb _); [|reflexivity].
  destruct (write_file W _ _ _) as [[[]|e] st4]; reflexivity.
Qed.

Lemma write_file_run filename bytes st :
  write_file W filename (Some bytes) st =
  match file_open W (trace st) filename with
  | Some e => (Raise e, log (EvOpen filename) st)
  | None =>
      let st3 := log (EvWrite filename bytes) (log (EvOpen filename) st) in
      match file_write W (trace (log (EvOpen filename) st)) filename bytes with
      | None => (Ok tt, set_fs (<[filename := bytes]> (fs st)) st3)
      | Some (e, written) =>
          (Raise e, set_fs (<[filename := slice_to written bytes]> (fs st)) st3)
      end
  end.
Proof.
  unfold write_file.
  destruct (file_open W _ _); [reflexivity|].
  cbn [log set_fs fs trace memory].
  destruct (file_write W _ _ _) as [[e written]|];
    now rewrite insert_insert_eq.
Qed.

(** The audio path is taken exactly when every stage of the chain went
    through. *)
Lemma audio_outcome_present text st1 text_reply filename st' :
  audio_outcome W cfg text st1 = (Ok (text_reply, Some filename), st') <->
  let st2 := log (EvPost MURFAI_URL (murf_payload text_reply)
                    (headers_murf cfg) 30) st1 in
  let audio_event := synthesis_outcome W cfg text_reply st1 in
  let download_result := download_outcome W (gr_audio_url audio_event) st2 in
  let st3 := log (EvGet (gr_audio_url audio_event) 15) st2 in
  text_reply = text /\
  env_truthy (MURFAI_API_KEY cfg) = true /\
  gr_type audio_event = "SUCCESS" /\
  download_succeeded download_result = true /\
  fr_filename download_result = filename /\
  write_file W filename (fr_content download_result) st3 = (Ok tt, st').
Proof.
  unfold audio_outcome. split.
  - destruct (env_truthy (MURFAI_API_KEY cfg)); [|discriminate].
    destruct (String.eqb _ "SUCCESS") eqn:Ht; [|discriminate].
    destruct (download_succeeded _) eqn:Hd; [|discriminate].
    destruct (write_file W _ _ _) as [[[]|e] st4] eqn:Hw; [|discriminate].
    intros [= <- <- <-].
    apply String.eqb_eq in Ht. cbn zeta. auto 10.
  - cbn zeta. intros (-> & -> & Ht & Hd & <- & Hw).
    apply String.eqb_eq in Ht. now rewrite Ht, Hd, Hw.
Qed.

Lemma turn_audio_present user_message st text_reply filename st' :
  get_text_and_audio_response W cfg user_message st
    = (Ok (text_reply, Some filename), st') <->
  exists st1,
    text_outcome W cfg user_message st = (Ok text_reply, st1) /\
    let st2 := log (EvPost MURFAI_URL (murf_payload text_reply)
                      (headers_murf cfg) 30) st1 in
    let audio_event := synthesis_outcome W cfg text_reply st1 in
    let download_result := download_outcome W (gr_audio_url audio_event) st2 in
    let st3 := log (EvGet (gr_audio_url audio_event) 15) st2 in
    env_truthy (MURFAI_API_KEY cfg) = true /\
    gr_type audio_event = "SUCCESS" /\
    download_succeeded download_result = true /\
    fr_filename download_result = filename /\
    write_file W filename (fr_content download_result) st3 = (Ok tt, st').
Proof.
  rewrite get_text_and_audio_response_run. unfold turn_outcome.
  destruct (text_outcome W cfg user_message st) as [[text|e] st1].
  - rewrite audio_outcome_present. cbn zeta. split.
    + intros (-> & H). exists st1. auto.
    + intros (st1' & [= -> ->] & H). auto.
  - split; [discriminate|]. intros (st1' & [=] & _).
Qed.

(** When the audio path is taken, the file named in the result holds the
    whole body the host delivered, whatever was there before, and its name
    has the expected shape. *)
Lemma turn_audio_durable user_message st text_reply filename st' :
  get_text_and_audio_response W cfg user_message st
    = (Ok (text_reply, Some filename), st') ->
  exists content st3,
    fs st' = <[filename := content]> (fs st) /\
    fs st' !! filename = Some content /\
    write_file W filename (Some content) st3 = (Ok tt, st') /\
    matches_audio_pattern filename = true.
Proof.
  intros (st1 & Htext & Hkey & Ht & Hd & <- & Hw)%turn_audio_present.
  pose proof (text_outcome_fs W cfg user_message st) as Hfs.
  rewrite Htext in Hfs. cbn [snd] in Hfs.
  apply download_succeeded_inv in Hd as (s & response & content & Hu & _ & _ & _ & Hd).
  rewrite Hd in Hw |- *. cbn [fr_filename fr_content] in *.
  exists content. eexists. split; [|split; [|split; [exact Hw|]]].
  - rewrite write_file_run in Hw.
    destruct (file_open W _ _); [discriminate|].
    destruct (file_write W _ _ _) as [[]|]; [discriminate|].
    injection Hw as <-. cbn [set_fs log fs]. now rewrite Hfs.
  - rewrite write_file_run in Hw.
    destruct (file_open W _ _); [discriminate|].
    destruct (file_write W _ _ _) as [[]|]; [discriminate|].
    injection Hw as <-. cbn [set_fs log fs]. apply lookup_insert_eq.
  - apply audio_filename_matches; apply filename_hash_shape.
Qed.

(** Every value the audio stages hand to the downloader is truthy. *)
Lemma audio_outcome_downloads_truthy text st1 :
  exists new,
    trace (snd (audio_outcome W cfg text st1)) = (trace st1 ++ new)%list /\
    forall url timeout, In (EvGet url timeout) new -> py_truthy url = true.
Proof.
  unfold audio_outcome.
  destruct (env_truthy (MURFAI_API_KEY cfg)).
  2:{ exists []. cbn [snd]. rewrite app_nil_r. split; [reflexivity|]. now intros ? ? []. }
  destruct (String.eqb _ "SUCCESS") eqn:Ht.
  2:{ exists [EvPost MURFAI_URL (murf_payload text) (headers_murf cfg) 30].
      cbn [snd log trace]. split; [reflexivity|].
      intros url timeout [Hin|[]]. discriminate Hin. }
  apply String.eqb_eq in Ht.
  destruct (synthesis_outcome_inv W cfg text st1)
    as [[He _]|(response & data & audio_url & _ & _ & _ & _ & Hurl & Hs)];
    [rewrite Ht in He; discriminate He|].
  rewrite Hs in *. cbn [gr_audio_url] in *.
  set (post := EvPost MURFAI_URL (murf_payload text) (headers_murf cfg) 30).
  set (st3 := log (EvGet audio_url 15) (log post st1)).
  assert (Htr3 : trace st3 = (trace st1 ++ [post; EvGet audio_url 15])%list).
  { subst st3; cbn [log trace]. rewrite <- !app_assoc. reflexivity. }
  assert (Hposted : forall url timeout,
             In (EvGet url timeout) [post; EvGet audio_url 15] ->
             py_truthy url = true).
  { intros url timeout [Hin|[Hin|[]]].
    - discriminate Hin.
    - now injection Hin as <- _. }
  destruct (download_succeeded _) eqn:Hd.
  2:{ eexists; split; [exact Htr3|]. exact Hposted. }
  apply download_succeeded_inv in Hd as (s & got & content & _ & _ & _ & _ & ->).
  cbn [fr_filename fr_content]. rewrite write_file_run.
  destruct (file_open W _ _) as [e|];
    [|destruct (file_write W _ _ _) as [[e written]|]];
    cbn [snd set_fs log trace]; fold st3; rewrite Htr3, <- !app_assoc;
    (eexists; split; [reflexivity|]); intros url timeout Hin;
    apply in_app_or in Hin as [Hin|Hin];
    try exact (Hposted url timeout Hin);
    cbn [app In] in Hin;
    repeat (destruct Hin as [Hin|Hin]; [discriminate Hin|]); destruct Hin.
Qed.

(** Every value the orchestrator hands to the downloader is truthy. *)
Lemma turn_downloads_truthy user_message st :
  exists new,
    trace (snd (get_text_and_audio_response W cfg user_message st))
      = (trace st ++ new)%list /\
    forall url timeout, In (EvGet url timeout) new -> py_truthy url = true.
Proof.
  rewrite get_text_and_audio_response_run. unfold turn_outcome.
  destruct (text_outcome_trace W cfg user_message st) as (new1 & Htr & Hnew1).
  assert (Hno : forall url timeout, In (EvGet url timeout) new1 -> py_truthy url = true).
  { intros url timeout Hin. rewrite List.Forall_forall in Hnew1.
    apply Hnew1 in Hin. discriminate Hin. }
  destruct (text_outcome W cfg user_message st) as [[text|e] st1]; cbn [snd] in Htr.
  - destruct (audio_outcome_downloads_truthy text st1) as (new2 & Htr2 & Hnew2).
    exists (new1 ++ new2)%list. rewrite Htr2, Htr, <- app_assoc.
    split; [reflexivity|].
    intros url timeout [Hin|Hin]%in_app_or; eauto.
  - exists new1. auto.
Qed.

(** A synthesis or a download that failed ends the turn with the text
    alone. *)
Lemma turn_degrades_before_write user_message st text_reply st1 :
  text_outcome W cfg user_message st = (Ok text_reply, st1) ->
  let st2 := log (EvPost MURFAI_URL (murf_payload text_reply)
                    (headers_murf cfg) 30) st1 in
  let audio_event := synthesis_outcome W cfg text_reply st1 in
  env_truthy (MURFAI_API_KEY cfg) = true ->
  gr_type audio_event = "ERROR" \/
  download_succeeded (download_outcome W (gr_audio_url audio_event) st2) = false ->
  fst (get_text_and_audio_response W cfg user_message st) = Ok (text_reply, None).
Proof.
  cbn zeta. intros Htext Hkey H.
  rewrite get_text_and_audio_response_run. unfold turn_outcome, audio_outcome.
  rewrite Htext, Hkey.
  destruct H as [-> | H]; [reflexivity|].
  destruct (String.eqb _ "SUCCESS"); [|reflexivity].
  now rewrite H.
Qed.

End Orchestrator.

(** C4: without a synthesis credential, (a) the synthesizer answers with
    the "not configured" error at once and leaves the outside untouched, and
    (b) a turn is the text generator and nothing more: it returns the
    generator's text with no audio, in the state the generator ended in, and
    no request reaches the synthesis endpoint.  (The generator returns
    unless the print of its error handler raises; the turn then raises with
    it, still without any request.) *)
Theorem no_credential_no_synthesis (W : World) (cfg : Config) :
  env_truthy (MURFAI_API_KEY cfg) = false ->
  (forall text st,
     get_generated_audio W cfg text st =
     (Ok (GeneratedResponse "ERROR" (PyStr "")
            (PyStr "Murf AI API key not configured")), st)) /\
  (forall user_message st,
     (forall text_reply st',
        get_text_response W cfg user_message st = (Ok text_reply, st') ->
        get_text_and_audio_response W cfg user_message st
          = (Ok (text_reply, None), st')) /\
     snd (get_text_and_audio_response W cfg user_message st)
       = snd (get_text_response W cfg user_message st) /\
     fs (snd (get_text_and_audio_response W cfg user_message st)) = fs st /\
     exists new,
       trace (snd (get_text_and_audio_response W cfg user_message st))
         = (trace st ++ new)%list /\
       Forall (fun ev => is_synthesis_call ev = false) new) /\
  ((forall tr msg, stdout_write W tr msg = None) ->
   forall user_message st,
     exists text_reply st',
       get_text_and_audio_response W cfg user_message st
         = (Ok (text_reply, None), st') /\
       get_text_response W cfg user_message st = (Ok text_reply, st') /\
       fs st' = fs st /\
       exists new,
         trace st' = (trace st ++ new)%list /\
         Forall (fun ev => is_synthesis_call ev = false) new).
Proof.
  intros Hkey.
  assert (Hturn : forall user_message st,
            get_text_and_audio_response W cfg user_message st =
            match text_outcome W cfg user_message st with
            | (Ok text_reply, st1) => (Ok (text_reply, None), st1)
            | (Raise e, st1) => (Raise e, st1)
            end).
  { intros. rewrite get_text_and_audio_response_run.
    unfold turn_outcome, audio_outcome. now rewrite Hkey. }
  assert (Hsame : forall user_message st,
            snd (get_text_and_audio_response W cfg user_message st)
            = snd (text_outcome W cfg user_message st)).
  { intros. rewrite Hturn. now destruct (text_outcome _ _ _ _) as [[] ?]. }
  assert (Hquiet : forall user_message st,
            exists new,
              trace (snd (text_outcome W cfg user_message st))
                = (trace st ++ new)%list /\
              Forall (fun ev => is_synthesis_call ev = false) new).
  { intros. destruct (text_outcome_trace W cfg user_message st) as (new & Htr & Hnew).
    exists new. split; [exact Htr|].
    eapply Forall_impl; [exact Hnew|]. now intros []. }
  split; [|split].
  - intros text st. now apply get_generated_audio_unconfigured.
  - intros user_message st. rewrite Hsame, get_text_response_run.
    split; [|split; [reflexivity|split; [apply text_outcome_fs|apply Hquiet]]].
    intros text_reply st' Htext. now rewrite Hturn, Htext.
  - intros Hout user_message st.
    destruct (text_outcome_returns W cfg user_message st Hout)
      as (text_reply & st1 & Htext).
    exists text_reply, st1. rewrite Hturn, get_text_response_run, Htext.
    split; [reflexivity|]. split; [reflexivity|].
    pose proof (text_outcome_fs W cfg user_message st) as Hfs.
    destruct (Hquiet user_message st) as (new & Htr & Hnew).
    rewrite Htext in Hfs, Htr. cbn [snd] in *. eauto.
Qed.

Lemma no_credential_no_synthesis_witness :
  get_generated_audio (host (Ok "Bonjour!") murf_ok audio_ok None None)
    (config (Some "sk-test") None) "Bonjour!" fresh =
  (Ok (GeneratedResponse "ERROR" (PyStr "")
         (PyStr "Murf AI API key not configured")), fresh) /\
  exists text_reply st',
    get_text_and_audio_response (host (Ok "Bonjour!") murf_ok audio_ok None None)
      (config (Some "sk-test") None) "Hello" fresh = (Ok (text_reply, None), st') /\
    get_text_response (host (Ok "Bonjour!") murf_ok audio_ok None None)
      (config (Some "sk-test") None) "Hello" fresh = (Ok text_reply, st') /\
    fs st' = fs fresh /\
    exists new,
      trace st' = (trace fresh ++ new)%list /\
      Forall (fun ev => is_synthesis_call ev = false) new.
Proof.
  destruct (no_credential_no_synthesis
              (host (Ok "Bonjour!") murf_ok audio_ok None None)
              (config (Some "sk-test") None) eq_refl) as (Ha & _ & Hb).
  split; [apply Ha | apply Hb]. reflexivity.
Defined.

(** C6: a download answered with a status other than 200 returns the
    error "Download failed. Status: <code>" with that code, no content and
    no file name; and a turn whose synthesis succeeded but whose download
    failed this way returns the text the generator produced, with no
    audio. *)
Theorem download_non_200 (W : World) (url : pyval) (st : State)
    (response : get_response) :
  http_get W (trace st) url = Ok response ->
  get_status response <> 200%Z ->
  download_audio_file W url st =
    (Ok (FinalResponse None
           ("Download failed. Status: " +:+ PyStr.of_Z (get_status response)) ""),
     log (EvGet url 15) st) /\
  forall cfg user_message st0 text_reply st1 audio_event,
    env_truthy (MURFAI_API_KEY cfg) = true ->
    get_text_response W cfg user_message st0 = (Ok text_reply, st1) ->
    get_generated_audio W cfg text_reply st1 = (Ok audio_event, st) ->
    gr_type audio_event = "SUCCESS" ->
    gr_audio_url audio_event = url ->
    get_text_and_audio_response W cfg user_message st0 =
      (Ok (text_reply, None), log (EvGet url 15) st).
Proof.
  intros Hget Hcode.
  assert (Hout : download_outcome W url st =
                 FinalResponse None
                   ("Download failed. Status: " +:+ PyStr.of_Z (get_status response)) "").
  { unfold download_outcome. rewrite Hget.
    destruct (get_status response =? 200)%Z eqn:E; [|reflexivity].
    apply Z.eqb_eq in E. contradiction. }
  split.
  - now rewrite download_audio_file_run, Hout.
  - intros cfg user_message st0 text_reply st1 audio_event Hkey Htext Hsynth Ht Hu.
    rewrite get_text_response_run in Htext.
    rewrite get_generated_audio_run in Hsynth by assumption.
    rewrite get_text_and_audio_response_run. unfold turn_outcome, audio_outcome.
    rewrite Htext. injection Hsynth as <- <-.
    rewrite Hkey, Ht. cbn [String.eqb Ascii.eqb Bool.eqb]. rewrite Hu, Hout.
    reflexivity.
Qed.

Lemma download_non_200_witness :
  get_text_and_audio_response (host (Raise offline) murf_ok audio_missing None None)
    (config None (Some "murf-key")) "Any hidden gem?" fresh =
  (Ok (respond_spec "Any hidden gem?", None),
   log (EvGet (PyStr sample_url) 15)
     (log (EvPost MURFAI_URL (murf_payload (respond_spec "Any hidden gem?"))
             (headers_murf (config None (Some "murf-key"))) 30) fresh)).
Proof.
  refine (proj2 (download_non_200
            (host (Raise offline) murf_ok audio_missing None None)
            (PyStr sample_url) _ (GetResponse 404 (Ok "Not Found")) _ _)
            (config None (Some "murf-key")) "Any hidden gem?" fresh
            (respond_spec "Any hidden gem?") fresh
            (GeneratedResponse "SUCCESS" (PyStr sample_url)
               (PyDict [("audioFile", PyStr sample_url)])) _ _ _ _ _);
    try reflexivity.
  cbn. lia.
Defined.

(** C9, as amended: a turn's reply text is empty only if the model backend
    itself answered with the empty string.  For every utterance, when the
    backend does not do so (in particular when it is unconfigured or fails,
    where the reply is a canned one), and the print of the generator's
    error handler and the persistence step go through, the turn returns a
    reply text that is not empty. *)
Theorem reply_text_nonempty (W : World) (cfg : Config) (user_message : string)
    (st : State) :
  (forall text,
     llm_invoke W (trace st) (template (buffer_string (memory st)) user_message)
       = Ok text -> text <> "") ->
  (forall tr msg, stdout_write W tr msg = None) ->
  (forall tr filename, file_open W tr filename = None) ->
  (forall tr filename bytes, file_write W tr filename bytes = None) ->
  exists text_reply audio st',
    get_text_and_audio_response W cfg user_message st
      = (Ok (text_reply, audio), st') /\
    text_reply <> "".
Proof.
  intros Hllm Hout Hopen Hwrite.
  rewrite get_text_and_audio_response_run. unfold turn_outcome.
  destruct (text_outcome_returns W cfg user_message st Hout)
    as (text_reply & st1 & Htext).
  assert (Hne : text_reply <> "").
  { revert Htext. unfold text_outcome.
    destruct (_ && _); [|intros [= <- _]; apply respond_spec_nonempty].
    destruct (llm_invoke W _ _) as [text|e] eqn:E.
    - intros [= <- _]. now apply Hllm.
    - rewrite Hout. intros [= <- _]. apply respond_spec_nonempty. }
  rewrite Htext. unfold audio_outcome.
  destruct (env_truthy (MURFAI_API_KEY cfg)); [|eauto].
  destruct (String.eqb _ "SUCCESS"); [|eauto].
  destruct (download_succeeded _) eqn:Hd; [|eauto].
  apply download_succeeded_inv in Hd as (s & got & content & _ & _ & _ & _ & ->).
  cbn [fr_filename fr_content].
  rewrite write_file_run, Hopen, Hwrite. eauto.
Qed.

Lemma reply_text_nonempty_witness :
  exists text_reply audio st',
    get_text_and_audio_response (host (Ok "Bonjour!") murf_ok audio_ok None None)
      (config (Some "sk-test") (Some "murf-key")) "Hello" fresh
      = (Ok (text_reply, audio), st') /\
    text_reply <> "".
Proof.
  apply (reply_text_nonempty (host (Ok "Bonjour!") murf_ok audio_ok None None)
           (config (Some "sk-test") (Some "murf-key")) "Hello" fresh).
  - intros text [= <-]. discriminate.
  - reflexivity.
  - reflexivity.
  - reflexivity.
Defined.

(** C9, as worded, fails: a backend that answers with the empty string
    makes the turn return an empty reply text. *)
Lemma reply_text_can_be_empty :
  fst (get_text_and_audio_response (host (Ok "") murf_ok audio_ok None None)
         (config (Some "sk-test") None) "Hello" fresh)
  = Ok ("", None).
Proof. vm_compute. reflexivity. Qed.

(** C10, as amended: the synthesizer always returns, and the record it
    returns has type [SUCCESS] or [ERROR]; an [ERROR] carries the empty
    string as URL, and a [SUCCESS] carries the [audioFile] value of the
    response, which is truthy: it is never the empty string, but it is a
    string only if the service sent one.  Hence every value the
    orchestrator hands to the downloader is truthy. *)
Theorem get_generated_audio_type (W : World) (cfg : Config) (text : string)
    (st : State) :
  exists r st',
    get_generated_audio W cfg text st = (Ok r, st') /\
    (gr_type r = "SUCCESS" \/ gr_type r = "ERROR") /\
    (gr_type r = "ERROR" -> gr_audio_url r = PyStr "") /\
    (gr_type r = "SUCCESS" ->
       py_truthy (gr_audio_url r) = true /\
       (forall s, gr_audio_url r = PyStr s -> s <> "") /\
       exists data,
         gr_response r = PyDict data /\
         assoc_get data "audioFile" = Some (gr_audio_url r)) /\
    (forall user_message st0,
       exists new,
         trace (snd (get_text_and_audio_response W cfg user_message st0))
           = (trace st0 ++ new)%list /\
         forall url timeout, In (EvGet url timeout) new -> py_truthy url = true).
Proof.
  assert (Hgen : exists r st',
            get_generated_audio W cfg text st = (Ok r, st') /\
            ((gr_type r = "ERROR" /\ gr_audio_url r = PyStr "") \/
             (gr_type r = "SUCCESS" /\ py_truthy (gr_audio_url r) = true /\
              exists data,
                gr_response r = PyDict data /\
                assoc_get data "audioFile" = Some (gr_audio_url r)))).
  { destruct (env_truthy (MURFAI_API_KEY cfg)) eqn:Hkey.
    - rewrite get_generated_audio_run by assumption.
      do 2 eexists. split; [reflexivity|].
      destruct (synthesis_outcome_inv W cfg text st)
        as [H|(response & data & audio_url & _ & _ & _ & Hg & Hurl & ->)];
        [auto|].
      right. cbn [gr_type gr_audio_url gr_response]. eauto 10.
    - rewrite get_generated_audio_unconfigured by assumption.
      do 2 eexists. split; [reflexivity|]. auto. }
  destruct Hgen as (r & st' & Hrun & Hr). exists r, st'.
  split; [exact Hrun|].
  split; [|split; [|split]].
  - destruct Hr as [[-> _]|[-> _]]; auto.
  - destruct Hr as [[_ Hu]|[-> _]]; [auto|discriminate].
  - destruct Hr as [[-> _]|(_ & Hu & Hd)]; [discriminate|].
    intros _. split; [exact Hu|]. split; [|exact Hd].
    intros s Hs ->. rewrite Hs in Hu. discriminate Hu.
  - apply turn_downloads_truthy.
Qed.

(** C10, as worded, fails: a service that sends a number as [audioFile]
    gets a [SUCCESS] whose URL is not a string. *)
Lemma success_without_string :
  exists r st',
    get_generated_audio (host (Raise offline) murf_number audio_ok None None)
      (config None (Some "murf-key")) "Hello" fresh = (Ok r, st') /\
    ~ success_carries_string r.
Proof.
  rewrite get_generated_audio_run by reflexivity.
  do 2 eexists. split; [reflexivity|].
  intros [_ H]. destruct (H eq_refl) as (s & Hs & _).
  vm_compute in Hs. discriminate Hs.
Qed.

(** C1: a chain whose synthesis and download succeeded but whose write
    broke off does not end in a result without audio: the turn raises the
    write's exception, and the truncated file stays behind. *)
Theorem partial_write_raises :
  fst (get_text_and_audio_response
         (host (Raise offline) murf_ok audio_ok None (Some (disk_full, 3%nat)))
         (config None (Some "murf-key")) "Hello" fresh)
  = Raise disk_full /\
  fs (snd (get_text_and_audio_response
             (host (Raise offline) murf_ok audio_ok None (Some (disk_full, 3%nat)))
             (config None (Some "murf-key")) "Hello" fresh))
    !! "audio_8802147d.mp3" = Some "ID3".
Proof. split; vm_compute; reflexivity. Qed.

(** C2: when the file of the persistence step cannot be opened, the turn
    does not return the text without audio: it raises the exception of
    [open] to its caller. *)
Theorem failed_open_raises :
  fst (get_text_and_audio_response
         (host (Raise offline) murf_ok audio_ok (Some read_only) None)
         (config None (Some "murf-key")) "Hello" fresh)
  = Raise read_only.
Proof. vm_compute. reflexivity. Qed.

(** * Further properties of the pipeline *)

(** ** Substring search and lower-casing *)


Lemma append_cons c a b : String c a +:+ b = String c (a +:+ b).
Proof. reflexivity. Qed.

Lemma lower_app a b : PyStr.lower (a +:+ b) = PyStr.lower a +:+ PyStr.lower b.
Proof.
  induction a as [|c a IH]; [reflexivity|].
  rewrite append_cons. cbn [PyStr.lower]. now rewrite IH, append_cons.
Qed.



Lemma startswith_app p rest : PyStr.startswith p (p +:+ rest) = true.
Proof.
  induction p as [|a p IH]; [reflexivity|].
  rewrite append_cons. cbn [PyStr.startswith]. now rewrite Ascii.eqb_refl.
Qed.

Lemma contains_startswith needle hay :
  PyStr.startswith needle hay = true -> needle in_str hay = true.
Proof. intros H. destruct hay; cbn [PyStr.contains]; now rewrite H. Qed.

Lemma contains_app needle before after :
  needle in_str (before +:+ needle +:+ after) = true.
Proof.
  induction before as [|c before IH].
  - change (needle in_str (needle +:+ after) = true).
    apply contains_startswith, startswith_app.
  - rewrite append_cons. cbn [PyStr.contains]. rewrite IH. apply orb_true_r.
Qed.

(** ** More on the fallback responder *)

Lemma respond_spec_unfold message :
  respond_spec message =
  if rule_matches (PyStr.lower message) (nth 0 fallback_rules ([], "")) then
    snd (nth 0 fallback_rules ([], ""))
  else if rule_matches (PyStr.lower message) (nth 1 fallback_rules ([], "")) then
    snd (nth 1 fallback_rules ([], ""))
  else if rule_matches (PyStr.lower message) (nth 2 fallback_rules ([], "")) then
    snd (nth 2 fallback_rules ([], ""))
  else if rule_matches (PyStr.lower message) (nth 3 fallback_rules ([], "")) then
    snd (nth 3 fallback_rules ([], ""))
  else if rule_matches (PyStr.lower message) (nth 4 fallback_rules ([], "")) then
    snd (nth 4 fallback_rules ([], ""))
  else GENERIC_REPLY.
Proof.
  unfold respond_spec, fallback_rules. cbn [find nth].
  repeat (destruct (rule_matches _ _); [reflexivity|]). reflexivity.
Qed.

(** X1: a canned reply is returned exactly when its keyword group matches
    the lower-cased message and no group before it does. *)
Theorem fallback_reply_iff (message : string) (i : nat)
    (rule : list string * string) :
  nth_error fallback_rules i = Some rule ->
  get_fallback_response message = Ok (snd rule) <->
  rule_matches (PyStr.lower message) rule = true /\
  existsb (rule_matches (PyStr.lower message)) (firstn i fallback_rules) = false.
Proof.
  intros Hi. rewrite get_fallback_response_spec, respond_spec_unfold.
  unfold fallback_rules in *.
  destruct i as [|[|[|[|[|i]]]]]; cbn [nth_error] in Hi;
    [injection Hi as <- ..|destruct i; discriminate Hi];
    cbn [nth firstn existsb snd];
    repeat destruct (rule_matches _ _); cbn [orb];
    (split; [intros H; try discriminate H; auto
            | intros [H1 H2]; try discriminate; reflexivity]).
Qed.

Lemma fallback_reply_iff_witness :
  get_fallback_response "Is SPORT part of culture?" =
    Ok (snd (["prepare"; "culture"],
             "I always research local customs first, learn a few basic phrases in the local language, pack light but smart, and make sure to try the street food - it's often the most authentic!")).
Proof.
  apply (fallback_reply_iff "Is SPORT part of culture?" 2); [reflexivity|].
  split; reflexivity.
Defined.

Ltac case_keyword :=
  match goal with
  | |- context [PyStr.contains ?k ?m] =>
      destruct (PyStr.contains k m) eqn:?; cbn [orb andb negb]
  end.

(** X2: the fallback responder only ever answers with one of six fixed
    replies, and with the generic one exactly when none of the ten trigger
    keywords occurs in the lower-cased message. *)
Theorem fallback_generic_iff (message : string) :
  (get_fallback_response message = Ok GENERIC_REPLY <->
   forallb (fun k => negb (k in_str PyStr.lower message)) keywords = true) /\
  exists reply,
    get_fallback_response message = Ok reply /\
    In reply (GENERIC_REPLY :: map snd fallback_rules).
Proof.
  rewrite get_fallback_response_spec, respond_spec_unfold.
  unfold keywords, rule_matches, fallback_rules.
  cbn [nth fst snd existsb flat_map forallb app map].
  rewrite !orb_false_r.
  split.
  - repeat (case_keyword; [split; intros H; discriminate H|]).
    split; reflexivity.
  - repeat (case_keyword;
            [eexists; split; [reflexivity|]; cbn [In]; auto 10|]).
    eexists; split; [reflexivity|]. now left.
Qed.



(** X4: wherever a word that lower-cases to "memorable" or "experience"
    stands in a message, whatever comes before and after it, the reply is
    the travel-experience one. *)
Theorem fallback_top_rule_anywhere (before word after : string) :
  PyStr.lower word = "memorable" \/ PyStr.lower word = "experience" ->
  get_fallback_response (before +:+ word +:+ after) =
  Ok (snd (nth 0 fallback_rules ([], ""))).
Proof.
  intros H.
  replace (Ok (snd (nth 0 fallback_rules ([], ""))))
    with (dict_getitem FALLBACK_RESPONSES "travel experience")
    by apply fallback_keys_present.
  unfold get_fallback_response. rewrite !lower_app.
  destruct H as [-> | ->]; rewrite contains_app;
    [reflexivity | now rewrite orb_true_r].
Qed.

Lemma fallback_top_rule_anywhere_witness :
  get_fallback_response ("My hidden gem was an " +:+ "EXPERIENCE" +:+ " to prepare for") =
  Ok (snd (nth 0 fallback_rules ([], ""))).
Proof.
  apply fallback_top_rule_anywhere. right. reflexivity.
Defined.

(** X5: the five example questions of the interface reach the five canned
    replies, each the reply of the keyword group of the same rank; none of
    them falls through to the generic reply or is caught by an earlier
    group. *)
Theorem examples_reach_their_replies :
  map get_fallback_response examples =
  map (fun rule => Ok (snd rule)) fallback_rules.
Proof. vm_compute. reflexivity. Qed.

(** ** More on the text generator *)

Lemma llm_chain_key cfg :
  chain_truthy (llm_chain cfg) = true -> env_truthy (OPENAI_API_KEY cfg) = true.
Proof.
  unfold llm_chain.
  destruct (LANGCHAIN_AVAILABLE cfg), (env_truthy (OPENAI_API_KEY cfg));
    cbn; congruence.
Qed.

Lemma app_cons_neq {A} (l : list A) x more : (l ++ x :: more)%list <> l.
Proof.
  intros H. apply (f_equal (@List.length A)) in H.
  rewrite length_app in H. cbn in H. lia.
Qed.

(** X6: when the chain was built and the model answers, the text generator
    returns the model's text verbatim, asks the model with the persona
    prompt filled with the stored exchanges and the message, and appends
    the new exchange to the conversation memory; files are not touched. *)
Theorem get_text_response_model_path (W : World) (cfg : Config)
    (user_message text : string) (st : State) :
  chain_truthy (llm_chain cfg) = true ->
  llm_invoke W (trace st) (template (buffer_string (memory st)) user_message)
    = Ok text ->
  exists st',
    get_text_response W cfg user_message st = (Ok text, st') /\
    memory st' = (memory st ++ [(user_message, text)])%list /\
    trace st' = (trace st ++
                 [EvLLM (template (buffer_string (memory st)) user_message)])%list /\
    fs st' = fs st.
Proof.
  intros Hchain Hllm. rewrite get_text_response_run. unfold text_outcome.
  rewrite Hchain, (llm_chain_key _ Hchain), Hllm. cbn [andb fst snd].
  eexists. split; [reflexivity|]. auto.
Qed.

Lemma get_text_response_model_path_witness :
  exists st',
    get_text_response (host (Ok "Bonjour!") murf_ok audio_ok None None)
      (config (Some "sk-test") None) "Hello" fresh = (Ok "Bonjour!", st') /\
    memory st' = (memory fresh ++ [("Hello", "Bonjour!")])%list /\
    trace st' = (trace fresh ++
                 [EvLLM (template (buffer_string (memory fresh)) "Hello")])%list /\
    fs st' = fs fresh.
Proof.
  apply (get_text_response_model_path
           (host (Ok "Bonjour!") murf_ok audio_ok None None)
           (config (Some "sk-test") None) "Hello" "Bonjour!" fresh);
    reflexivity.
Defined.

(** X7: the text generator leaves the model alone, with no call, nothing
    printed and no change of state, exactly when the LangChain import
    failed, or OPENAI_API_KEY is unset or empty, or building the chain
    raised; in every other case the first thing it does is to call the
    model. *)
Theorem model_left_alone_iff (W : World) (cfg : Config)
    (user_message : string) (st : State) :
  (snd (get_text_response W cfg user_message st) = st <->
   LANGCHAIN_AVAILABLE cfg = false \/
   env_truthy (OPENAI_API_KEY cfg) = false \/
   exists e, chain_construction cfg = Raise e) /\
  (snd (get_text_response W cfg user_message st) <> st ->
   exists more,
     trace (snd (get_text_response W cfg user_message st)) =
     (trace st ++
      EvLLM (template (buffer_string (memory st)) user_message) :: more)%list).
Proof.
  rewrite get_text_response_run. cbn [snd].
  rewrite <- llm_chain_None_unconfigured.
  unfold text_outcome.
  destruct (llm_chain cfg) as [[]|] eqn:Hc; cbn [chain_truthy andb].
  - assert (Hk : env_truthy (OPENAI_API_KEY cfg) = true)
      by (apply llm_chain_key; now rewrite Hc).
    rewrite Hk.
    destruct (llm_invoke W _ _) as [text|e]; cbn [snd set_memory log trace].
    + split; [|intros _; now exists []].
      split; [|discriminate]. intros H. apply (f_equal trace) in H.
      cbn in H. now apply app_cons_neq in H.
    + destruct (stdout_write W _ _); cbn [snd log trace].
      * split; [|intros _; now exists []].
        split; [|discriminate]. intros H. apply (f_equal trace) in H.
        cbn in H. now apply app_cons_neq in H.
      * split; [|intros _; rewrite <- app_assoc; eexists; reflexivity].
        split; [|discriminate]. intros H. apply (f_equal trace) in H.
        cbn in H. rewrite <- app_assoc in H. now apply app_cons_neq in H.
  - split; [tauto|]. intros H. now destruct H.
Qed.

(** ** More on the speech synthesizer *)

Lemma raise_for_status_ok_iff url response :
  raise_for_status url response = Ok tt <->
  ~ (400 <= post_status response < 600)%Z.
Proof.
  unfold raise_for_status.
  destruct (400 <=? _)%Z eqn:E1, (_ <? 500)%Z eqn:E2,
           (500 <=? _)%Z eqn:E3, (_ <? 600)%Z eqn:E4; cbn [andb];
    split; intros H; try discriminate H; try reflexivity; try lia;
    exfalso; apply H; lia.
Qed.

(** X8: the synthesizer always returns, and it reports [SUCCESS] exactly
    when the key is set, the request came back with a status outside
    400..599, and the body parsed to an object whose [audioFile] item is
    truthy; the record then carries that item and the parsed body.  A 3xx
    answer with a usable body is a success like a 2xx one. *)
Theorem synthesis_success_iff (W : World) (cfg : Config) (text : string)
    (st : State) :
  exists r st',
    get_generated_audio W cfg text st = (Ok r, st') /\
    (gr_type r = "SUCCESS" <->
     env_truthy (MURFAI_API_KEY cfg) = true /\
     exists response data audio_url,
       http_post W (trace st) MURFAI_URL (murf_payload text) (headers_murf cfg)
         = Ok response /\
       ~ (400 <= post_status response < 600)%Z /\
       post_json response = Ok (PyDict data) /\
       assoc_get data "audioFile" = Some audio_url /\
       py_truthy audio_url = true) /\
    (gr_type r = "SUCCESS" ->
     exists data,
       gr_response r = PyDict data /\
       assoc_get data "audioFile" = Some (gr_audio_url r)).
Proof.
  destruct (env_truthy (MURFAI_API_KEY cfg)) eqn:Hkey.
  - rewrite get_generated_audio_run by assumption.
    do 2 eexists. split; [reflexivity|].
    destruct (synthesis_outcome_inv W cfg text st)
      as [[He _]|(response & data & audio_url & Hp & Hs & Hj & Hg & Ht & Hr)].
    + split; [|rewrite He; discriminate].
      split; [rewrite He; discriminate|].
      intros (_ & response & data & audio_url & Hp & Hs & Hj & Hg & Ht).
      apply raise_for_status_ok_iff with (url := MURFAI_URL) in Hs.
      revert He. unfold synthesis_outcome.
      rewrite Hp, Hs, Hj. cbn [py_get]. rewrite Hg, Ht. discriminate.
    + rewrite Hr. cbn [gr_type gr_response gr_audio_url].
      split; [|intros _; eauto].
      split; [|reflexivity]. intros _. split; [reflexivity|].
      exists response, data, audio_url.
      apply raise_for_status_ok_iff in Hs. auto.
  - rewrite get_generated_audio_unconfigured by assumption.
    do 2 eexists. split; [reflexivity|]. cbn [gr_type].
    split; [|discriminate]. split; [discriminate|]. intros [H _]. discriminate H.
Qed.

(** X9: a body that parses to anything but an object is an [ERROR] that
    names the offending type - "Unexpected error: '<type>' object has no
    attribute 'get'" - and carries no URL. *)
Theorem synthesis_non_object_body (W : World) (cfg : Config) (text : string)
    (st : State) (response : post_response) (data : pyval) :
  env_truthy (MURFAI_API_KEY cfg) = true ->
  http_post W (trace st) MURFAI_URL (murf_payload text) (headers_murf cfg)
    = Ok response ->
  ~ (400 <= post_status response < 600)%Z ->
  post_json response = Ok data ->
  (forall d, data <> PyDict d) ->
  get_generated_audio W cfg text st =
  (Ok (GeneratedResponse "ERROR" (PyStr "")
         (PyStr ("Unexpected error: '" +:+ py_type_name data +:+
                 "' object has no attribute 'get'"))),
   log (EvPost MURFAI_URL (murf_payload text) (headers_murf cfg) 30) st).
Proof.
  intros Hkey Hp Hs Hj Hd.
  rewrite get_generated_audio_run by assumption.
  apply raise_for_status_ok_iff with (url := MURFAI_URL) in Hs.
  unfold synthesis_outcome. rewrite Hp, Hs, Hj.
  destruct data; try reflexivity. now destruct (Hd d).
Qed.

Lemma synthesis_non_object_body_witness :
  get_generated_audio
    (host (Raise offline)
       (Ok (PostResponse 200 "OK" (Ok (PyList [PyStr sample_url]))))
       audio_ok None None)
    (config None (Some "murf-key")) "Hello" fresh =
  (Ok (GeneratedResponse "ERROR" (PyStr "")
         (PyStr ("Unexpected error: '" +:+ py_type_name (PyList [PyStr sample_url]) +:+
                 "' object has no attribute 'get'"))),
   log (EvPost MURFAI_URL (murf_payload "Hello")
          (headers_murf (config None (Some "murf-key"))) 30) fresh).
Proof.
  apply (synthesis_non_object_body _ _ _ _
           (PostResponse 200 "OK" (Ok (PyList [PyStr sample_url]))));
    try reflexivity; [cbn; lia | discriminate].
Defined.

(** X10: an answer with a status in 400..599 is an [ERROR] whose message
    starts with "API Request failed: " and the status code, whatever the
    body holds, a usable [audioFile] included. *)
Theorem synthesis_http_error (W : World) (cfg : Config) (text : string)
    (st : State) (response : post_response) :
  env_truthy (MURFAI_API_KEY cfg) = true ->
  http_post W (trace st) MURFAI_URL (murf_payload text) (headers_murf cfg)
    = Ok response ->
  (400 <= post_status response < 600)%Z ->
  exists detail,
    get_generated_audio W cfg text st =
    (Ok (GeneratedResponse "ERROR" (PyStr "")
           (PyStr ("API Request failed: " +:+ PyStr.of_Z (post_status response)
                   +:+ detail))),
     log (EvPost MURFAI_URL (murf_payload text) (headers_murf cfg) 30) st).
Proof.
  intros Hkey Hp Hs.
  rewrite get_generated_audio_run by assumption.
  unfold synthesis_outcome, raise_for_status. rewrite Hp.
  destruct (post_status response <? 500)%Z eqn:E.
  - replace (400 <=? post_status response)%Z with true by lia.
    cbn [andb]. eexists. reflexivity.
  - replace (400 <=? post_status response)%Z with true by lia.
    replace (500 <=? post_status response)%Z with true by lia.
    replace (post_status response <? 600)%Z with true by lia.
    cbn [andb]. eexists. reflexivity.
Qed.

Lemma synthesis_http_error_witness :
  exists detail,
    get_generated_audio
      (host (Raise offline)
         (Ok (PostResponse 401 "Unauthorized"
                (Ok (PyDict [("audioFile", PyStr sample_url)]))))
         audio_ok None None)
      (config None (Some "murf-key")) "Hello" fresh =
    (Ok (GeneratedResponse "ERROR" (PyStr "")
           (PyStr ("API Request failed: " +:+ PyStr.of_Z 401 +:+ detail))),
     log (EvPost MURFAI_URL (murf_payload "Hello")
            (headers_murf (config None (Some "murf-key"))) 30) fresh).
Proof.
  apply (synthesis_http_error _ _ _ _
           (PostResponse 401 "Unauthorized"
              (Ok (PyDict [("audioFile", PyStr sample_url)]))));
    try reflexivity. cbn. lia.
Defined.

(** X11: whatever the service does, one call of the synthesizer returns
    without raising, sends at most one request - exactly one when the key
    is set, to the fixed endpoint with the fixed voice, the given text, the
    MP3 format and a timeout of 30 - and touches neither the files nor the
    conversation memory. *)
Theorem synthesis_footprint (W : World) (cfg : Config) (text : string)
    (st : State) :
  exists r st',
    get_generated_audio W cfg text st = (Ok r, st') /\
    memory st' = memory st /\
    fs st' = fs st /\
    trace st' =
      (trace st ++
       if env_truthy (MURFAI_API_KEY cfg) then
         [EvPost "https://api.murf.ai/v1/speech/generate"
            (PyDict [("voiceId", PyStr "Caleb"); ("text", PyStr text);
                     ("format", PyStr "MP3")])
            (headers_murf cfg) 30]
       else [])%list.
Proof.
  destruct (env_truthy (MURFAI_API_KEY cfg)) eqn:Hkey.
  - rewrite get_generated_audio_run by assumption.
    do 2 eexists. split; [reflexivity|]. auto.
  - rewrite get_generated_audio_unconfigured by assumption.
    do 2 eexists. split; [reflexivity|]. rewrite app_nil_r. auto.
Qed.

(** ** More on the audio fetcher *)

Lemma matches_audio_pattern_nonempty f :
  matches_audio_pattern f = true -> PyStr.truthy f = true.
Proof.
  unfold matches_audio_pattern. destruct f; [discriminate|reflexivity].
Qed.

(** X12: whatever the host does, a download returns without raising after
    exactly one GET with a timeout of 15, and the record it returns is
    either a success - no error, some content, a file name of the shape
    [audio_<8-hex-chars>.mp3] - or a failure - an error message, no content
    and an empty file name; never a mixture. *)
Theorem download_record_wellformed (W : World) (url : pyval) (st : State) :
  exists r,
    download_audio_file W url st = (Ok r, log (EvGet url 15) st) /\
    ((fr_error r = "" /\
      (exists content, fr_content r = Some content) /\
      matches_audio_pattern (fr_filename r) = true) \/
     (fr_error r <> "" /\ fr_content r = None /\ fr_filename r = "")).
Proof.
  rewrite download_audio_file_run. eexists. split; [reflexivity|].
  destruct (download_succeeded (download_outcome W url st)) eqn:Hd.
  - left.
    apply download_succeeded_inv in Hd as (s & response & content & _ & _ & _ & _ & ->).
    cbn [fr_error fr_content fr_filename].
    split; [reflexivity|]. split; [eauto|].
    apply audio_filename_matches; apply filename_hash_shape.
  - right. revert Hd. unfold download_succeeded, download_outcome.
    destruct (http_get W _ _) as [response|e]; [|intros _; now cbn].
    destruct (_ =? _)%Z; [|intros _; now cbn].
    destruct (py_encode url) as [encoded|e]; [|intros _; now cbn].
    destruct (get_content response) as [content|e]; [discriminate|intros _; now cbn].
Qed.

(** ** More on the orchestrator *)

Section Turns.

Variable W : World.
Variable cfg : Config.


Lemma write_file_memory filename content st :
  memory (snd (write_file W filename content st)) = memory st.
Proof.
  unfold write_file.
  destruct (file_open W _ _); [reflexivity|].
  destruct content as [bytes|]; [|reflexivity].
  destruct (file_write W _ _ _) as [[]|]; reflexivity.
Qed.

(** The audio stages leave the conversation memory alone. *)
Lemma audio_outcome_memory text st1 :
  memory (snd (audio_outcome W cfg text st1)) = memory st1.
Proof.
  unfold audio_outcome.
  destruct (env_truthy (MURFAI_API_KEY cfg)); [|reflexivity].
  destruct (String.eqb _ "SUCCESS"); [|reflexivity].
  destruct (download_succeeded _); [|reflexivity].
  match goal with
  | |- context [write_file W ?f ?c ?s] =>
      pose proof (write_file_memory f c s) as Hm;
      destruct (write_file W f c s) as [[[]|e] st4]
  end; exact Hm.
Qed.

(** With a file system that takes every write, the audio stages return,
    and with the reply they were given. *)
Lemma audio_outcome_returns text st1 :
  (forall tr filename, file_open W tr filename = None) ->
  (forall tr filename bytes, file_write W tr filename bytes = None) ->
  exists audio st', audio_outcome W cfg text st1 = (Ok (text, audio), st').
Proof.
  intros Hopen Hwrite. unfold audio_outcome.
  destruct (env_truthy (MURFAI_API_KEY cfg)); [|eauto].
  destruct (String.eqb _ "SUCCESS"); [|eauto].
  destruct (download_succeeded _) eqn:Hd; [|eauto].
  apply download_succeeded_inv in Hd as (s & got & content & _ & _ & _ & _ & ->).
  cbn [fr_filename fr_content].
  rewrite write_file_run, Hopen, Hwrite. eauto.
Qed.

(** Once the generator has returned, on a file system that takes every
    write, the turn returns with the generator's reply. *)
Lemma turn_returns user_message st text_reply st1 :
  text_outcome W cfg user_message st = (Ok text_reply, st1) ->
  (forall tr filename, file_open W tr filename = None) ->
  (forall tr filename bytes, file_write W tr filename bytes = None) ->
  exists audio st',
    get_text_and_audio_response W cfg user_message st
      = (Ok (text_reply, audio), st') /\
    memory st' = memory st1.
Proof.
  intros Htext Hopen Hwrite.
  rewrite get_text_and_audio_response_run. unfold turn_outcome. rewrite Htext.
  pose proof (audio_outcome_memory text_reply st1) as Hm.
  destruct (audio_outcome_returns text_reply st1 Hopen Hwrite)
    as (audio & st' & Ha).
  rewrite Ha in Hm |- *. eauto.
Qed.

End Turns.

(** X13: when the synthesis service reports a truthy [audioFile] that is
    not a string, the turn ends with the text alone and writes no file,
    whatever the host would answer to a download. *)
Theorem non_string_url_degrades (W : World) (cfg : Config)
    (user_message text_reply : string) (st st1 : State)
    (response : post_response) (data : list (string * pyval)) (value : pyval) :
  env_truthy (MURFAI_API_KEY cfg) = true ->
  get_text_response W cfg user_message st = (Ok text_reply, st1) ->
  http_post W (trace st1) MURFAI_URL (murf_payload text_reply) (headers_murf cfg)
    = Ok response ->
  ~ (400 <= post_status response < 600)%Z ->
  post_json response = Ok (PyDict data) ->
  assoc_get data "audioFile" = Some value ->
  py_truthy value = true ->
  (forall s, value <> PyStr s) ->
  exists st',
    get_text_and_audio_response W cfg user_message st = (Ok (text_reply, None), st') /\
    fs st' = fs st.
Proof.
  intros Hkey Htext Hp Hs Hj Hg Ht Hv.
  rewrite get_text_response_run in Htext.
  rewrite get_text_and_audio_response_run. unfold turn_outcome, audio_outcome.
  pose proof (text_outcome_fs W cfg user_message st) as Hfs.
  rewrite Htext in Hfs |- *. cbn [snd] in Hfs.
  apply raise_for_status_ok_iff with (url := MURFAI_URL) in Hs.
  unfold synthesis_outcome. rewrite Hkey, Hp, Hs, Hj. cbn [py_get].
  rewrite Hg, Ht. cbn [gr_type gr_audio_url String.eqb Ascii.eqb Bool.eqb].
  assert (Hd : download_succeeded
                 (download_outcome W value
                    (log (EvPost MURFAI_URL (murf_payload text_reply)
                            (headers_murf cfg) 30) st1)) = false).
  { destruct (download_succeeded _) eqn:Hd; [|reflexivity].
    apply download_succeeded_inv in Hd as (s & _ & _ & Hu & _).
    now destruct (Hv s). }
  rewrite Hd. eexists. split; [reflexivity|]. exact Hfs.
Qed.

Lemma non_string_url_degrades_witness :
  exists st',
    get_text_and_audio_response
      (host (Raise offline) murf_number audio_ok None None)
      (config None (Some "murf-key")) "Hello" fresh
      = (Ok (respond_spec "Hello", None), st') /\
    fs st' = fs fresh.
Proof.
  apply (non_string_url_degrades
           (host (Raise offline) murf_number audio_ok None None)
           (config None (Some "murf-key")) "Hello" (respond_spec "Hello")
           fresh fresh
           (PostResponse 200 "OK" (Ok (PyDict [("audioFile", PyInt 1)])))
           [("audioFile", PyInt 1)] (PyInt 1));
    try reflexivity; [cbn; lia | discriminate].
Defined.

(** X14: a turn that returns without audio has written nothing: the files
    are what they were before the turn. *)
Theorem turn_without_audio_leaves_files (W : World) (cfg : Config)
    (user_message text_reply : string) (st st' : State) :
  get_text_and_audio_response W cfg user_message st = (Ok (text_reply, None), st') ->
  fs st' = fs st.
Proof.
  rewrite get_text_and_audio_response_run. unfold turn_outcome, audio_outcome.
  pose proof (text_outcome_fs W cfg user_message st) as Hfs.
  destruct (text_outcome W cfg user_message st) as [[text|e] st1];
    [|discriminate]. cbn [snd] in Hfs.
  destruct (env_truthy (MURFAI_API_KEY cfg)); [|now intros [= _ <-]].
  destruct (String.eqb _ "SUCCESS"); [|now intros [= _ <-]].
  destruct (download_succeeded _); [|now intros [= _ <-]].
  destruct (write_file W _ _ _) as [[[]|e] st4]; discriminate.
Qed.

Lemma turn_without_audio_leaves_files_witness :
  fs (snd (get_text_and_audio_response
             (host (Raise offline) murf_ok audio_missing None None)
             (config None (Some "murf-key")) "Hello" fresh))
  = fs fresh.
Proof.
  apply (turn_without_audio_leaves_files
           (host (Raise offline) murf_ok audio_missing None None)
           (config None (Some "murf-key")) "Hello" (respond_spec "Hello")).
  vm_compute. reflexivity.
Defined.



(** X16: a turn raises in two places only.  Either the model call raised
    and the print of the generator's error handler raised in turn: the turn
    raises what the print raised.  Or the generator returned, the key is
    set, the synthesis of this reply came back as a [SUCCESS], the download
    of its URL succeeded, and [open] or [write] raised on the very file
    that download named, with the very bytes it delivered: the turn raises
    what they raised. *)
Theorem turn_raises_only_from_print_or_write (W : World) (cfg : Config)
    (user_message : string) (st : State) (e : exn) :
  fst (get_text_and_audio_response W cfg user_message st) = Raise e ->
  (fst (get_text_response W cfg user_message st) = Raise e /\
   exists e0,
     llm_invoke W (trace st) (template (buffer_string (memory st)) user_message)
       = Raise e0 /\
     stdout_write W
       (trace st ++ [EvLLM (template (buffer_string (memory st)) user_message)])%list
       ("LLM chain error: " +:+ exn_str e0) = Some e) \/
  (exists text_reply st1 audio_event st2 content filename st3,
     get_text_response W cfg user_message st = (Ok text_reply, st1) /\
     env_truthy (MURFAI_API_KEY cfg) = true /\
     get_generated_audio W cfg text_reply st1 = (Ok audio_event, st2) /\
     gr_type audio_event = "SUCCESS" /\
     download_audio_file W (gr_audio_url audio_event) st2
       = (Ok (FinalResponse (Some content) "" filename), st3) /\
     (file_open W (trace st3) filename = Some e \/
      (file_open W (trace st3) filename = None /\
       exists written,
         file_write W (trace st3 ++ [EvOpen filename])%list filename content
           = Some (e, written)))).
Proof.
  rewrite get_text_and_audio_response_run, get_text_response_run.
  unfold turn_outcome.
  destruct (text_outcome W cfg user_message st) as [[text_reply|e'] st1] eqn:Htext.
  2:{ cbn [fst]. intros [= ->]. left. split; [reflexivity|].
      apply text_outcome_raise with (cfg := cfg). now rewrite Htext. }
  unfold audio_outcome.
  destruct (env_truthy (MURFAI_API_KEY cfg)) eqn:Hkey; [|discriminate].
  destruct (String.eqb _ "SUCCESS") eqn:Ht; [|discriminate].
  apply String.eqb_eq in Ht.
  destruct (download_succeeded _) eqn:Hd; [|discriminate].
  apply download_succeeded_inv in Hd as (s & got & content & _ & _ & _ & _ & Hd).
  rewrite Hd. cbn [fr_filename fr_content]. rewrite write_file_run.
  set (filename := "audio_" +:+ slice_to 8 (MD5.hexdigest s) +:+ ".mp3") in *.
  intros Hraise. right.
  exists text_reply, st1, (synthesis_outcome W cfg text_reply st1).
  eexists. exists content, filename. eexists.
  split; [reflexivity|]. split; [reflexivity|].
  split; [now apply get_generated_audio_run|]. split; [exact Ht|].
  split; [now rewrite download_audio_file_run, Hd|].
  revert Hraise.
  destruct (file_open W _ filename) as [e'|] eqn:Ho.
  - intros [= <-]. now left.
  - destruct (file_write W _ filename content) as [[e' written]|] eqn:Hw;
      [|discriminate].
    intros [= <-]. right. split; [reflexivity|]. exists written.
    first [exact Hw | reflexivity].
Qed.

Lemma turn_raises_only_from_print_or_write_witness :
  (fst (get_text_response (host (Raise offline) murf_ok audio_ok (Some read_only) None)
          (config None (Some "murf-key")) "Hello" fresh) = Raise read_only /\
   exists e0,
     llm_invoke (host (Raise offline) murf_ok audio_ok (Some read_only) None)
       (trace fresh) (template (buffer_string (memory fresh)) "Hello") = Raise e0 /\
     stdout_write (host (Raise offline) murf_ok audio_ok (Some read_only) None)
       (trace fresh ++ [EvLLM (template (buffer_string (memory fresh)) "Hello")])%list
       ("LLM chain error: " +:+ exn_str e0) = Some read_only) \/
  (exists text_reply st1 audio_event st2 content filename st3,
     get_text_response (host (Raise offline) murf_ok audio_ok (Some read_only) None)
       (config None (Some "murf-key")) "Hello" fresh = (Ok text_reply, st1) /\
     env_truthy (MURFAI_API_KEY (config None (Some "murf-key"))) = true /\
     get_generated_audio (host (Raise offline) murf_ok audio_ok (Some read_only) None)
       (config None (Some "murf-key")) text_reply st1 = (Ok audio_event, st2) /\
     gr_type audio_event = "SUCCESS" /\
     download_audio_file (host (Raise offline) murf_ok audio_ok (Some read_only) None)
       (gr_audio_url audio_event) st2
       = (Ok (FinalResponse (Some content) "" filename), st3) /\
     (file_open (host (Raise offline) murf_ok audio_ok (Some read_only) None)
        (trace st3) filename = Some read_only \/
      (file_open (host (Raise offline) murf_ok audio_ok (Some read_only) None)
         (trace st3) filename = None /\
       exists written,
         file_write (host (Raise offline) murf_ok audio_ok (Some read_only) None)
           (trace st3 ++ [EvOpen filename])%list filename content
           = Some (read_only, written)))).
Proof.
  apply (turn_raises_only_from_print_or_write
           (host (Raise offline) murf_ok audio_ok (Some read_only) None)
           (config None (Some "murf-key")) "Hello" fresh).
  vm_compute. reflexivity.
Defined.

(** X17: the audio stages never change the reply or the conversation
    memory: the text a turn returns is the text the generator produced, and
    after the turn, returned or raised, the memory is what the generator
    left. *)
Theorem turn_keeps_text_and_memory (W : World) (cfg : Config)
    (user_message : string) (st : State) :
  memory (snd (get_text_and_audio_response W cfg user_message st)) =
  memory (snd (get_text_response W cfg user_message st)) /\
  forall text_reply audio,
    fst (get_text_and_audio_response W cfg user_message st) = Ok (text_reply, audio) ->
    fst (get_text_response W cfg user_message st) = Ok text_reply.
Proof.
  rewrite get_text_and_audio_response_run, get_text_response_run.
  unfold turn_outcome.
  destruct (text_outcome W cfg user_message st) as [[text|e] st1]; cbn [fst snd].
  2:{ split; [reflexivity|discriminate]. }
  split; [apply audio_outcome_memory|].
  unfold audio_outcome.
  destruct (env_truthy (MURFAI_API_KEY cfg)); [|now intros ? ? [= <- _]].
  destruct (String.eqb _ "SUCCESS"); [|now intros ? ? [= <- _]].
  destruct (download_succeeded _); [|now intros ? ? [= <- _]].
  destruct (write_file W _ _ _) as [[[]|e] st4]; cbn [fst];
    [now intros ? ? [= <- _]|discriminate].
Qed.

Lemma bearer_key cfg :
  env_truthy (MURFAI_API_KEY cfg) = true ->
  exists key,
    MURFAI_API_KEY cfg = Some key /\ key <> "" /\
    In ("Authorization", "Bearer " +:+ key) (headers_murf cfg).
Proof.
  unfold env_truthy, headers_murf.
  destruct (MURFAI_API_KEY cfg) as [key|]; [|discriminate].
  intros Hk. exists key. split; [reflexivity|].
  split; [now intros ->|]. cbn. auto.
Qed.

(** X18: beyond what the text generator does, a turn does at most four
    things, each at most once and in this order: one synthesis request
    carrying the reply text of this very turn, one download, one file open
    and one write to the file just opened.  When anything is sent at all,
    the generator has returned that reply and the request is authorized
    with "Bearer " and the configured, non-empty key. *)
Theorem turn_effects_in_order (W : World) (cfg : Config)
    (user_message : string) (st : State) :
  exists text_reply audio_events url filename bytes,
    (forall text, fst (get_text_response W cfg user_message st) = Ok text ->
                  text = text_reply) /\
    trace (snd (get_text_and_audio_response W cfg user_message st))
      = (trace (snd (get_text_response W cfg user_message st)) ++ audio_events)%list /\
    audio_events `prefix_of`
      [EvPost MURFAI_URL (murf_payload text_reply) (headers_murf cfg) 30;
       EvGet url 15; EvOpen filename; EvWrite filename bytes] /\
    (audio_events <> [] ->
     fst (get_text_response W cfg user_message st) = Ok text_reply /\
     exists key,
       MURFAI_API_KEY cfg = Some key /\ key <> "" /\
       In ("Authorization", "Bearer " +:+ key) (headers_murf cfg)).
Proof.
  rewrite get_text_and_audio_response_run, get_text_response_run.
  unfold turn_outcome.
  destruct (text_outcome W cfg user_message st) as [[text|e] st1]; cbn [fst snd].
  2:{ exists "", [], PyNone, "", "". rewrite app_nil_r.
      split; [discriminate|]. split; [reflexivity|].
      split; [apply prefix_nil|]. now intros []. }
  exists text. unfold audio_outcome.
  pose proof (bearer_key cfg) as Hb.
  destruct (env_truthy (MURFAI_API_KEY cfg)).
  2:{ exists [], PyNone, "", "". cbn [snd]. rewrite app_nil_r.
      split; [now intros ? [= ->]|]. split; [reflexivity|].
      split; [apply prefix_nil|]. now intros []. }
  specialize (Hb eq_refl).
  set (post := EvPost MURFAI_URL (murf_payload text) (headers_murf cfg) 30).
  destruct (String.eqb _ "SUCCESS").
  2:{ exists [post], PyNone, "", "". cbn [snd log trace].
      split; [now intros ? [= ->]|]. split; [reflexivity|].
      split; [now eexists|]. auto. }
  set (url := gr_audio_url (synthesis_outcome W cfg text st1)).
  destruct (download_succeeded _) eqn:Hd.
  2:{ exists [post; EvGet url 15], url, "", "". cbn [snd log trace].
      rewrite <- app_assoc. split; [now intros ? [= ->]|]. split; [reflexivity|].
      split; [now eexists|]. auto. }
  apply download_succeeded_inv in Hd as (s & got & content & _ & _ & _ & _ & ->).
  cbn [fr_filename fr_content]. rewrite write_file_run.
  set (filename := "audio_" +:+ slice_to 8 (MD5.hexdigest s) +:+ ".mp3").
  destruct (file_open W _ filename).
  { exists [post; EvGet url 15; EvOpen filename], url, filename, content.
    cbn [snd log trace]. rewrite <- !app_assoc.
    split; [now intros ? [= ->]|]. split; [reflexivity|].
    split; [now eexists|]. auto. }
  exists [post; EvGet url 15; EvOpen filename; EvWrite filename content],
         url, filename, content.
  split; [now intros ? [= ->]|].
  split; [|split; [reflexivity|auto]].
  destruct (file_write W _ filename content) as [[e written]|];
    cbn [snd set_fs log trace]; rewrite <- !app_assoc; reflexivity.
Qed.



(** ** The chat handlers *)

Section Chat.

Variable W : World.
Variable cfg : Config.

Lemma chat_bot_response_after_turn message history st text_reply audio st' :
  get_text_and_audio_response W cfg message st = (Ok (text_reply, audio), st') ->
  chat_bot_response W cfg message history st =
  (Ok ((shown history ++ [(message, text_reply)])%list,
       (shown history ++ [(message, text_reply)])%list, audio), st').
Proof.
  intros H. unfold chat_bot_response, mbind, M_bind. rewrite H.
  destruct audio as [filename|]; [|reflexivity].
  apply turn_audio_durable in H as (content & _ & _ & Hf & _ & Hp).
  apply matches_audio_pattern_nonempty in Hp. rewrite Hp.
  unfold path_exists. rewrite Hf. reflexivity.
Qed.

Lemma respond_after_turn message history st text_reply audio st' :
  get_text_and_audio_response W cfg message st = (Ok (text_reply, audio), st') ->
  respond W cfg message history st =
  (Ok ("", (shown history ++ [(message, text_reply)])%list, audio), st').
Proof.
  intros H. unfold respond, mbind, M_bind.
  now rewrite (chat_bot_response_after_turn _ _ _ _ _ _ H).
Qed.

Lemma respond_after_raise message history st e st' :
  get_text_and_audio_response W cfg message st = (Raise e, st') ->
  chat_bot_response W cfg message history st = (Raise e, st') /\
  respond W cfg message history st = (Raise e, st').
Proof.
  intros H. unfold respond, chat_bot_response, mbind, M_bind. now rewrite H.
Qed.

End Chat.

(** X20: when the turn returns, the chat handler returns the history it
    was given ([None] counting as empty) with the pair (message, reply)
    appended, twice, and the audio of the turn as it is: the check that the
    file exists never withholds a file the turn has just written.  The
    callback of the text box returns the same history and audio, and the
    empty string that clears the box. *)
Theorem handlers_pass_turn_through (W : World) (cfg : Config)
    (message : string) (history : option History) (st st' : State)
    (text_reply : string) (audio : option string) :
  get_text_and_audio_response W cfg message st = (Ok (text_reply, audio), st') ->
  chat_bot_response W cfg message history st =
    (Ok ((shown history ++ [(message, text_reply)])%list,
         (shown history ++ [(message, text_reply)])%list, audio), st') /\
  respond W cfg message history st =
    (Ok ("", (shown history ++ [(message, text_reply)])%list, audio), st').
Proof.
  intros H. split.
  - now apply chat_bot_response_after_turn.
  - now apply respond_after_turn.
Qed.

Lemma handlers_pass_turn_through_witness :
  chat_bot_response (host (Ok "Bonjour!") murf_ok audio_ok None None)
    (config (Some "sk-test") (Some "murf-key")) "Hello" None fresh =
    (Ok ((shown None ++ [("Hello", "Bonjour!")])%list,
         (shown None ++ [("Hello", "Bonjour!")])%list,
         Some "audio_8802147d.mp3"),
     snd (get_text_and_audio_response
            (host (Ok "Bonjour!") murf_ok audio_ok None None)
            (config (Some "sk-test") (Some "murf-key")) "Hello" fresh)) /\
  respond (host (Ok "Bonjour!") murf_ok audio_ok None None)
    (config (Some "sk-test") (Some "murf-key")) "Hello" None fresh =
    (Ok ("", (shown None ++ [("Hello", "Bonjour!")])%list,
         Some "audio_8802147d.mp3"),
     snd (get_text_and_audio_response
            (host (Ok "Bonjour!") murf_ok audio_ok None None)
            (config (Some "sk-test") (Some "murf-key")) "Hello" fresh)).
Proof.
  apply (handlers_pass_turn_through
           (host (Ok "Bonjour!") murf_ok audio_ok None None)
           (config (Some "sk-test") (Some "murf-key")) "Hello" None fresh).
  vm_compute. reflexivity.
Defined.

(** X21: the handlers raise exactly when the turn raises, and then with
    the same exception: nothing of their own can fail, and they catch
    nothing.  So a failed file write keeps both the message and the reply
    that was already produced from the display. *)
Theorem handlers_raise_iff (W : World) (cfg : Config) (message : string)
    (history : option History) (st : State) (e : exn) :
  (fst (chat_bot_response W cfg message history st) = Raise e <->
   fst (get_text_and_audio_response W cfg message st) = Raise e) /\
  (fst (respond W cfg message history st) = Raise e <->
   fst (get_text_and_audio_response W cfg message st) = Raise e).
Proof.
  destruct (get_text_and_audio_response W cfg message st)
    as [[[text_reply audio]|e'] st'] eqn:Hturn; cbn [fst].
  - rewrite (chat_bot_response_after_turn _ _ _ history _ _ _ _ Hturn),
            (respond_after_turn _ _ _ history _ _ _ _ Hturn).
    cbn [fst]. split; split; intros H; discriminate H.
  - destruct (respond_after_raise _ _ _ history _ _ _ Hturn) as [-> ->].
    cbn [fst]. split; split; intros [= ->]; reflexivity.
Qed.

(** ** Sessions *)

Section Sessions.

Variable W : World.
Variable cfg : Config.

Lemma session_cons message rest history st audio st1 reply :
  respond W cfg message history st =
    (Ok ("", (shown history ++ [(message, reply)])%list, audio), st1) ->
  session W cfg (message :: rest) history st =
  session W cfg rest (Some (shown history ++ [(message, reply)])%list) st1.
Proof.
  intros H. cbn [session]. unfold mbind, M_bind at 1. now rewrite H.
Qed.

(** The history a session returns lists the messages, whatever the host
    did on the way. *)
Lemma session_messages messages history st final st' :
  session W cfg messages history st = (Ok final, st') ->
  map fst (shown final) = (map fst (shown history) ++ messages)%list.
Proof.
  revert history st.
  induction messages as [|message rest IH]; intros history st.
  - intros [= <- _]. now rewrite app_nil_r.
  - destruct (get_text_and_audio_response W cfg message st)
      as [[[text_reply audio]|e] st1] eqn:Hturn.
    + rewrite (session_cons _ rest _ _ _ _ _
                 (respond_after_turn W cfg _ history _ _ _ _ Hturn)).
      intros H. apply IH in H. rewrite H. cbn [shown].
      rewrite map_app, <- app_assoc. reflexivity.
    + destruct (respond_after_raise W cfg _ history _ _ _ Hturn) as [_ Hr].
      cbn [session]. unfold mbind, M_bind at 1. rewrite Hr. discriminate.
Qed.

Hypothesis open_ok : forall tr filename, file_open W tr filename = None.
Hypothesis write_ok : forall tr filename bytes, file_write W tr filename bytes = None.

(** One submitted message, once the generator has returned, on a file
    system that takes every write. *)
Lemma respond_step message history st text_reply st1 :
  text_outcome W cfg message st = (Ok text_reply, st1) ->
  exists audio st',
    respond W cfg message history st =
    (Ok ("", (shown history ++ [(message, text_reply)])%list, audio), st') /\
    memory st' = memory st1.
Proof.
  intros Htext.
  destruct (turn_returns W cfg message st text_reply st1 Htext open_ok write_ok)
    as (audio & st' & Hturn & Hm).
  exists audio, st'. split; [|exact Hm].
  now apply respond_after_turn.
Qed.

Lemma session_returns messages history st :
  (forall tr msg, stdout_write W tr msg = None) ->
  exists final st', session W cfg messages history st = (Ok final, st').
Proof.
  intros Hout. revert history st.
  induction messages as [|message rest IH]; intros history st.
  - exists history, st. reflexivity.
  - destruct (text_outcome_returns W cfg message st Hout)
      as (text_reply & st1 & Htext).
    destruct (respond_step message history st text_reply st1 Htext)
      as (audio & st2 & Hr & _).
    rewrite (session_cons _ _ _ _ _ _ _ Hr). apply IH.
Qed.

Lemma session_in_sync messages history st :
  chain_truthy (llm_chain cfg) = true ->
  (forall tr prompt, exists text, llm_invoke W tr prompt = Ok text) ->
  memory st = shown history ->
  exists final st',
    session W cfg messages history st = (Ok final, st') /\
    memory st' = shown final.
Proof.
  intros Hchain Hllm. revert history st.
  induction messages as [|message rest IH]; intros history st Hsync.
  - exists history, st. split; [reflexivity|exact Hsync].
  - destruct (Hllm (trace st) (template (buffer_string (memory st)) message))
      as [text Htext].
    assert (Hout : text_outcome W cfg message st =
                   (Ok text,
                    set_memory (memory st ++ [(message, text)])%list
                      (log (EvLLM (template (buffer_string (memory st)) message)) st))).
    { unfold text_outcome.
      now rewrite Hchain, (llm_chain_key _ Hchain), Htext. }
    destruct (respond_step message history st _ _ Hout) as (audio & st1 & Hr & Hm).
    rewrite (session_cons _ _ _ _ _ _ _ Hr).
    apply IH. rewrite Hm. cbn [shown set_memory memory]. now rewrite Hsync.
Qed.

Lemma session_canned messages history st :
  llm_chain cfg = None ->
  exists final st',
    session W cfg messages history st = (Ok final, st') /\
    memory st' = memory st /\
    shown final =
      (shown history ++ map (fun m => (m, respond_spec m)) messages)%list.
Proof.
  intros Hchain. revert history st.
  induction messages as [|message rest IH]; intros history st.
  - exists history, st. split; [reflexivity|]. split; [reflexivity|].
    now rewrite app_nil_r.
  - assert (Ht : text_outcome W cfg message st = (Ok (respond_spec message), st)).
    { unfold text_outcome. now rewrite Hchain. }
    destruct (respond_step message history st _ _ Ht) as (audio & st1 & Hr & Hm).
    rewrite (session_cons _ _ _ _ _ _ _ Hr).
    destruct (IH (Some (shown history ++ [(message, respond_spec message)])%list) st1)
      as (final & st' & Hs & Hmem & Hshown).
    exists final, st'. split; [exact Hs|]. split; [congruence|].
    rewrite Hshown. cbn [shown map]. now rewrite <- app_assoc.
Qed.

End Sessions.

(** X22: the display history a session returns lists the messages
    submitted, in the order they were submitted, after the pairs it started
    with: one pair per message, none lost, none reordered, whatever the
    host did on the way.  And a session does return when the standard
    output takes every line and the file system every write. *)
Theorem session_lists_messages (W : World) (cfg : Config)
    (messages : list string) (history : option History) (st : State) :
  (forall final st',
     session W cfg messages history st = (Ok final, st') ->
     map fst (shown final) = (map fst (shown history) ++ messages)%list /\
     List.length (shown final) =
       (List.length (shown history) + List.length messages)%nat) /\
  ((forall tr msg, stdout_write W tr msg = None) ->
   (forall tr filename, file_open W tr filename = None) ->
   (forall tr filename bytes, file_write W tr filename bytes = None) ->
   exists final st',
     session W cfg messages history st = (Ok final, st') /\
     map fst (shown final) = (map fst (shown history) ++ messages)%list /\
     List.length (shown final) =
       (List.length (shown history) + List.length messages)%nat).
Proof.
  assert (Hlist : forall final st',
            session W cfg messages history st = (Ok final, st') ->
            map fst (shown final) = (map fst (shown history) ++ messages)%list /\
            List.length (shown final) =
              (List.length (shown history) + List.length messages)%nat).
  { intros final st' Hs.
    apply (session_messages W cfg messages history st final st') in Hs.
    split; [exact Hs|].
    apply (f_equal (@List.length string)) in Hs.
    now rewrite length_app, !length_map in Hs. }
  split; [exact Hlist|].
  intros Hout Hopen Hwrite.
  destruct (session_returns W cfg Hopen Hwrite messages history st Hout)
    as (final & st' & Hs).
  exists final, st'. split; [exact Hs|]. exact (Hlist final st' Hs).
Qed.

Lemma session_lists_messages_witness :
  exists final st',
    session (host (Ok "Bonjour!") murf_ok audio_ok None None)
      (config (Some "sk-test") (Some "murf-key"))
      ["Hello"; "Any hidden gem?"] None fresh = (Ok final, st') /\
    map fst (shown final) =
      (map fst (shown None) ++ ["Hello"; "Any hidden gem?"])%list /\
    List.length (shown final) =
      (List.length (shown None) + List.length ["Hello"; "Any hidden gem?"])%nat.
Proof.
  apply (session_lists_messages
           (host (Ok "Bonjour!") murf_ok audio_ok None None)
           (config (Some "sk-test") (Some "murf-key"))
           ["Hello"; "Any hidden gem?"] None fresh);
    intros; reflexivity.
Defined.

(** X23: with a chain that was built and a model that always answers, the
    conversation memory and the display history stay the same list over a
    session: if they agree at the start, then after any run of messages
    (file writes going through) what the model is shown as history is what
    the user sees. *)
Theorem session_memory_in_sync (W : World) (cfg : Config)
    (messages : list string) (history : option History) (st : State) :
  chain_truthy (llm_chain cfg) = true ->
  (forall tr prompt, exists text, llm_invoke W tr prompt = Ok text) ->
  (forall tr filename, file_open W tr filename = None) ->
  (forall tr filename bytes, file_write W tr filename bytes = None) ->
  memory st = shown history ->
  exists final st',
    session W cfg messages history st = (Ok final, st') /\
    memory st' = shown final.
Proof.
  intros Hchain Hllm Hopen Hwrite Hsync.
  now apply session_in_sync.
Qed.

Lemma session_memory_in_sync_witness :
  exists final st',
    session (host (Ok "Bonjour!") murf_ok audio_ok None None)
      (config (Some "sk-test") (Some "murf-key"))
      ["Hello"; "Any hidden gem?"] None fresh = (Ok final, st') /\
    memory st' = shown final.
Proof.
  apply (session_memory_in_sync
           (host (Ok "Bonjour!") murf_ok audio_ok None None)
           (config (Some "sk-test") (Some "murf-key"))
           ["Hello"; "Any hidden gem?"] None fresh);
    try reflexivity; intros; try reflexivity.
  now exists "Bonjour!".
Defined.

(** X24: without a chain, a session (file writes going through) never
    touches the conversation memory, and the display history grows by the
    pair of each message and its canned reply: every reply shown is one of
    the six fixed replies of the fallback responder. *)
Theorem session_without_model (W : World) (cfg : Config)
    (messages : list string) (history : option History) (st : State) :
  llm_chain cfg = None ->
  (forall tr filename, file_open W tr filename = None) ->
  (forall tr filename bytes, file_write W tr filename bytes = None) ->
  exists final st',
    session W cfg messages history st = (Ok final, st') /\
    memory st' = memory st /\
    shown final =
      (shown history ++ map (fun m => (m, respond_spec m)) messages)%list /\
    Forall (fun m => get_fallback_response m = Ok (respond_spec m) /\
                     In (respond_spec m) (GENERIC_REPLY :: map snd fallback_rules))
           messages.
Proof.
  intros Hchain Hopen Hwrite.
  destruct (session_canned W cfg Hopen Hwrite messages history st Hchain)
    as (final & st' & Hs & Hm & Hshown).
  exists final, st'. split; [exact Hs|]. split; [exact Hm|]. split; [exact Hshown|].
  apply List.Forall_forall. intros m _.
  split; [apply get_fallback_response_spec|].
  rewrite respond_spec_unfold. unfold fallback_rules. cbn [nth snd map In].
  repeat (destruct (rule_matches _ _); [auto 10|]). auto.
Qed.

Lemma session_without_model_witness :
  exists final st',
    session (host (Raise offline) murf_ok audio_ok None None)
      (config None (Some "murf-key"))
      ["Hello"; "Any hidden gem?"] (Some []) fresh = (Ok final, st') /\
    memory st' = memory fresh /\
    shown final =
      (shown (Some []) ++
       map (fun m => (m, respond_spec m)) ["Hello"; "Any hidden gem?"])%list /\
    Forall (fun m => get_fallback_response m = Ok (respond_spec m) /\
                     In (respond_spec m) (GENERIC_REPLY :: map snd fallback_rules))
           ["Hello"; "Any hidden gem?"].
Proof.
  apply (session_without_model
           (host (Raise offline) murf_ok audio_ok None None)
           (config None (Some "murf-key"))
           ["Hello"; "Any hidden gem?"] (Some []) fresh);
    intros; reflexivity.
Defined.
